(** * sourced.engine: the Python binding layer of the source{d} engine

    A shallow embedding of [python/sourced/engine/engine.py] and the
    properties of its delegating proxy layer.

    The module is glue between a caller and two foreign components: the
    JVM engine reached through py4j, and pyspark's [DataFrame].  Both are
    kept abstract (class [External]); the code of the module itself is
    translated method by method into a state-and-exception monad that
    records every JavaObject method request the module issues. *)

From Stdlib Require Import String Ascii List Bool ZArith Lia.
Import ListNotations.
Local Open Scope string_scope.

(** ** Exceptions *)

(** The exception classes that matter to the module.  [OtherError n] stands
    for any class that is not a subclass of [TypeError]. *)
Inductive exc_class : Type :=
| Exception
| TypeError
| AttributeError
| Py4JError
| Py4JJavaError
| OtherError (name : string).

(** What the [args] of an exception hold: plain data. *)
#[warnings="-register-all"] Inductive exc_arg : Type :=
| ArgNone
| ArgBool (b : bool)
| ArgInt (z : Z)
| ArgStr (s : string)
| ArgBytes (s : string)
| ArgList (l : list exc_arg)
| ArgTuple (l : list exc_arg).

(** An exception object: its class and its [args]. *)
Record pyexc : Type := mkException {
  exc_type : exc_class;
  exc_args : list exc_arg
}.

(** [C(message)]: the exception of class [C] raised with one string. *)
Definition mkExc (c : exc_class) (message : string) : pyexc :=
  mkException c [ArgStr message].

(** [isinstance(e, TypeError)], the test of an [except TypeError] clause. *)
Definition is_TypeError (e : pyexc) : bool :=
  match exc_type e with TypeError => true | _ => false end.

(** ** Strings *)

(** The double quote character, for messages that quote a package name. *)
Definition dquote : string := String (ascii_of_nat 34) EmptyString.

(** [needle in s] on Python strings. *)
Fixpoint str_contains (needle s : string) : bool :=
  String.prefix needle s ||
  match s with
  | EmptyString => false
  | String _ s' => str_contains needle s'
  end.

(** [needle == a] for a string [needle]: a string equals only a string. *)
Definition str_eq_arg (needle : string) (a : exc_arg) : bool :=
  match a with
  | ArgStr s => String.eqb needle s
  | _ => false
  end.

(** [needle in a] for a string [needle]: the substring test on a string,
    membership on a list or a tuple, a [TypeError] on anything else. *)
Definition py_in (needle : string) (a : exc_arg) : pyexc + bool :=
  match a with
  | ArgStr s => inr (str_contains needle s)
  | ArgList l | ArgTuple l => inr (existsb (str_eq_arg needle) l)
  | ArgBytes _ => inl (mkExc TypeError "a bytes-like object is required, not 'str'")
  | ArgNone => inl (mkExc TypeError "argument of type 'NoneType' is not iterable")
  | ArgBool _ => inl (mkExc TypeError "argument of type 'bool' is not iterable")
  | ArgInt _ => inl (mkExc TypeError "argument of type 'int' is not iterable")
  end.

(** ** Python values *)

(** The classes of the module that derive from pyspark's [DataFrame]. *)
Inductive klass : Type :=
| SourcedDataFrame
| RepositoriesDataFrame
| ReferencesDataFrame
| CommitsDataFrame
| TreeEntriesDataFrame
| BlobsDataFrame
| BlobsWithLanguageDataFrame
| UASTsDataFrame.

Definition klass_eqb (a b : klass) : bool :=
  match a, b with
  | SourcedDataFrame, SourcedDataFrame
  | RepositoriesDataFrame, RepositoriesDataFrame
  | ReferencesDataFrame, ReferencesDataFrame
  | CommitsDataFrame, CommitsDataFrame
  | TreeEntriesDataFrame, TreeEntriesDataFrame
  | BlobsDataFrame, BlobsDataFrame
  | BlobsWithLanguageDataFrame, BlobsWithLanguageDataFrame
  | UASTsDataFrame, UASTsDataFrame => true
  | _, _ => false
  end.

(** Runtime types of the values that reach the module. *)
Inductive pytype : Type :=
| T_NoneType
| T_bool
| T_int
| T_str
| T_list
| T_tuple
| T_JavaObject
| T_Column
| T_Engine
| T_DataFrame
| T_Sourced (k : klass).

(** [issubclass(a, b)]: every class of the module derives from
    [SourcedDataFrame], which derives from [DataFrame]; [bool] derives from
    [int]. *)
Definition issubclass (a b : pytype) : bool :=
  match a, b with
  | T_NoneType, T_NoneType => true
  | T_bool, (T_bool | T_int) => true
  | T_int, T_int => true
  | T_str, T_str => true
  | T_list, T_list => true
  | T_tuple, T_tuple => true
  | T_JavaObject, T_JavaObject => true
  | T_Column, T_Column => true
  | T_Engine, T_Engine => true
  | T_DataFrame, T_DataFrame => true
  | T_Sourced _, T_DataFrame => true
  | T_Sourced _, T_Sourced SourcedDataFrame => true
  | T_Sourced k, T_Sourced k' => klass_eqb k k'
  | _, _ => false
  end.

Section Values.

(** References to objects that live behind the py4j bridge. *)
Variable J : Type.

(** A [pyspark.sql.SparkSession]: the attributes the module reads. *)
Record SparkSession : Type := mkSession {
  _jsparkSession : J;
  sparkContext_gateway_jvm : J
}.

(** An instance of [SourcedDataFrame] or of one of its subclasses, as
    [SourcedDataFrame.__init__] leaves it. *)
Record proxy : Type := mkProxy {
  __class__ : klass;
  _jdf : J;
  _session : SparkSession;
  _implicits : J
}.

(** An instance of [Engine], as [Engine.__init__] leaves it. *)
Record engine : Type := mkEngine {
  session : SparkSession;
  __jsparkSession : J;
  __jvm : J;
  __engine : J;
  __implicits : J
}.

#[warnings="-register-all"] Inductive pyval : Type :=
| PyNone
| PyBool (b : bool)
| PyInt (z : Z)
| PyStr (s : string)
| PyList (l : list pyval)
| PyTuple (l : list pyval)
| PyJava (j : J)
| PyColumn (jc : J)
| PyEngine (e : engine)
| PyDataFrame (jdf : J) (sql_ctx : SparkSession)
| PyProxy (p : proxy).

Definition type_of (v : pyval) : pytype :=
  match v with
  | PyNone => T_NoneType
  | PyBool _ => T_bool
  | PyInt _ => T_int
  | PyStr _ => T_str
  | PyList _ => T_list
  | PyTuple _ => T_tuple
  | PyJava _ => T_JavaObject
  | PyColumn _ => T_Column
  | PyEngine _ => T_Engine
  | PyDataFrame _ _ => T_DataFrame
  | PyProxy p => T_Sourced (__class__ p)
  end.

Definition isinstance (v : pyval) (t : pytype) : bool :=
  issubclass (type_of v) t.

(** [*args, **kwargs] of a call. *)
Record pyargs : Type := mkArgs {
  args : list pyval;
  kwargs : list (string * pyval)
}.

(** A method request on a JavaObject: the method named [method] of
    [target], applied to [jargs]. *)
Record jcall : Type := mkCall {
  target : J;
  method : string;
  jargs : list pyval
}.

End Values.

Arguments mkSession {J}.
Arguments _jsparkSession {J}.
Arguments sparkContext_gateway_jvm {J}.
Arguments mkProxy {J}.
Arguments __class__ {J}.
Arguments _jdf {J}.
Arguments _session {J}.
Arguments _implicits {J}.
Arguments mkEngine {J}.
Arguments session {J}.
Arguments __jsparkSession {J}.
Arguments __jvm {J}.
Arguments __engine {J}.
Arguments __implicits {J}.
Arguments PyNone {J}.
Arguments PyBool {J}.
Arguments PyInt {J}.
Arguments PyStr {J}.
Arguments PyList {J}.
Arguments PyTuple {J}.
Arguments PyJava {J}.
Arguments PyColumn {J}.
Arguments PyEngine {J}.
Arguments PyDataFrame {J}.
Arguments PyProxy {J}.
Arguments type_of {J}.
Arguments isinstance {J}.
Arguments mkArgs {J}.
Arguments args {J}.
Arguments kwargs {J}.
Arguments mkCall {J}.
Arguments target {J}.
Arguments method {J}.
Arguments jargs {J}.

(** Python truthiness, as an [if] statement tests it, for the values a flag
    is given as.  (The truth test of a pyspark [Column] raises; a column is
    no value for a flag.) *)
Definition truthy {J} (v : pyval J) : bool :=
  match v with
  | PyNone => false
  | PyBool b => b
  | PyInt z => negb (Z.eqb z 0)
  | PyStr s => negb (String.eqb s "")
  | PyList l | PyTuple l => negb (Nat.eqb (length l) 0)
  | _ => true
  end.

(** ** The foreign components *)

(** What an external computation does: it moves the external world [W]
    (the JVM and pyspark's own objects) and answers with a value or raises. *)
Definition ext (W A : Type) : Type := W -> W * (pyexc + A).

(** The interface of everything the module delegates to.
    - [invoke]: py4j executes a method request on a JavaObject;
    - [java_import], [conf_set]: py4j's [java_import] and pyspark's
      [session.conf.set];
    - [DataFrame_getattr name]: [getattr(DataFrame, name)], absent on a
      pyspark that is too old to know [name];
    - [DataFrame___getattr__], [Column___eq__]: pyspark's column access
      [df.name] and the column comparison [col == value]. *)
Class External (J W : Type) : Type := {
  invoke : jcall J -> ext W J;
  java_import : J -> string -> ext W unit;
  conf_set : SparkSession J -> string -> pyval J -> ext W unit;
  DataFrame_getattr : string -> option (pyval J -> pyargs J -> ext W (pyval J));
  DataFrame___getattr__ : pyval J -> string -> ext W (pyval J);
  Column___eq__ : pyval J -> pyval J -> ext W (pyval J)
}.

(** ** The monad of the module's code *)

Section Monad.

Context {J W : Type}.

(** The external world and the requests issued so far, oldest first. *)
Record state : Type := mkState {
  world : W;
  trace : list (jcall J)
}.

Definition M (A : Type) : Type := state -> state * (pyexc + A).

Definition ret {A} (a : A) : M A := fun st => (st, inr a).

Definition raise {A} (e : pyexc) : M A := fun st => (st, inl e).

Definition bind {A B} (m : M A) (k : A -> M B) : M B :=
  fun st =>
    match m st with
    | (st', inr a) => k a st'
    | (st', inl e) => (st', inl e)
    end.

(** [try: m  except <caught> as e: handler(e)]. *)
Definition try_except {A} (m : M A) (caught : pyexc -> bool)
           (handler : pyexc -> M A) : M A :=
  fun st =>
    match m st with
    | (st', inl e) => if caught e then handler e st' else (st', inl e)
    | r => r
    end.

(** A call into pyspark or py4j library code. *)
Definition lift {A} (f : ext W A) : M A :=
  fun st =>
    let (w', r) := f (world st) in
    (mkState w' (trace st), r).

Context {E : External J W}.

(** A method request on a JavaObject: recorded, then executed. *)
Definition call (c : jcall J) : M J :=
  fun st =>
    let (w', r) := invoke c (world st) in
    (mkState w' (trace st ++ [c]), r).

End Monad.

Arguments state : clear implicits.
Arguments M : clear implicits.

Declare Scope py_scope.
Delimit Scope py_scope with py.
Notation "x <- m ;; k" := (bind m (fun x => k))
  (at level 100, m at next level, right associativity) : py_scope.
Notation "m ;;; k" := (bind m (fun _ => k))
  (at level 100, right associativity) : py_scope.
Local Open Scope py_scope.

(** The requests a run added to the trace. *)
Definition new_calls {J W} (st st' : state J W) : list (jcall J) :=
  skipn (length (trace st)) (trace st').

(** ** class Engine *)

Section Engine.

Context {J W : Type} {E : External J W}.

(** The message of the configuration error. *)
Definition package_missing_message : string :=
  "package " ++ dquote ++ "tech.sourced:engine:<version>" ++ dquote ++
  " cannot be found. Please, provide a jar with the package or install the package using --packages".

(** [self.__jvm.tech.sourced.engine.Engine.apply(jsparkSession, repos_path,
    repos_format)]: one request, addressed through the JVM view. *)
Definition Engine_apply_call (jvm jsparkSession : J)
           (repos_path repos_format : pyval J) : jcall J :=
  mkCall jvm "tech.sourced.engine.Engine.apply"
         [PyJava jsparkSession; repos_path; repos_format].

(** The body of the [except TypeError as e] clause:
    [if 'JavaPackage' in e.args[0]: raise Exception(...) else: raise e].
    Reading [e.args[0]] and testing [in] can themselves raise. *)
Definition Engine_apply_handler {A} (e : pyexc) : M J W A :=
  match exc_args e with
  | [] => raise (mkExc (OtherError "IndexError") "tuple index out of range")
  | first :: _ =>
      match py_in "JavaPackage" first with
      | inl failed => raise failed
      | inr true => raise (mkExc Exception package_missing_message)
      | inr false => raise e
      end
  end.

(** The [try]/[except TypeError] block of [Engine.__init__]. *)
Definition Engine_apply_guarded (jvm jsparkSession : J)
           (repos_path repos_format : pyval J) : M J W J :=
  try_except
    (call (Engine_apply_call jvm jsparkSession repos_path repos_format))
    is_TypeError
    Engine_apply_handler.

Definition Engine___init__ (session : SparkSession J)
           (repos_path repos_format skip_cleanup skip_read_errors : pyval J)
  : M J W (engine J) :=
  let jsparkSession := _jsparkSession session in
  lift (conf_set session "spark.tech.sourced.engine.repositories.path" repos_path) ;;;
  lift (conf_set session "spark.tech.sourced.engine.repositories.format" repos_format) ;;;
  let jvm := sparkContext_gateway_jvm session in
  lift (java_import jvm "tech.sourced.engine.Engine") ;;;
  lift (java_import jvm "tech.sourced.engine.package$") ;;;
  eng <- Engine_apply_guarded jvm jsparkSession repos_path repos_format ;;
  (if truthy skip_cleanup
   then call (mkCall eng "skipCleanup" [PyBool true]) ;;; ret tt
   else ret tt) ;;;
  (if truthy skip_read_errors
   then call (mkCall eng "skipReadErrors" [PyBool true]) ;;; ret tt
   else ret tt) ;;;
  implicits <- call (mkCall jvm "tech.sourced.engine.package$.MODULE$" []) ;;
  ret (mkEngine session jsparkSession jvm eng implicits).

(** [Engine.repositories] *)
Definition Engine_repositories (self : engine J) : M J W (proxy J) :=
  jdf <- call (mkCall (__engine self) "getRepositories" []) ;;
  ret (mkProxy RepositoriesDataFrame jdf (session self) (__implicits self)).

(** [Engine.blobs(repository_ids=[], reference_names=[], commit_hashes=[])] *)
Definition Engine_blobs (self : engine J)
           (repository_ids reference_names commit_hashes : pyval J)
  : M J W (proxy J) :=
  (if negb (isinstance repository_ids T_list)
   then raise (mkExc Exception "repository_ids must be a list")
   else ret tt) ;;;
  (if negb (isinstance reference_names T_list)
   then raise (mkExc Exception "reference_names must be a list")
   else ret tt) ;;;
  (if negb (isinstance commit_hashes T_list)
   then raise (mkExc Exception "commit_hashes must be a list")
   else ret tt) ;;;
  jdf <- call (mkCall (__engine self) "getBlobs"
                      [repository_ids; reference_names; commit_hashes]) ;;
  ret (mkProxy BlobsDataFrame jdf (session self) (__implicits self)).

(** [Engine.from_metadata(db_path, db_name='engine_metadata.db')] *)
Definition Engine_from_metadata (self : engine J) (db_path db_name : pyval J)
  : M J W (pyval J) :=
  call (mkCall (__engine self) "fromMetadata" [db_path; db_name]) ;;;
  ret (PyEngine self).

(** [Engine.from_repositories()] *)
Definition Engine_from_repositories (self : engine J) : M J W (pyval J) :=
  r <- call (mkCall (__engine self) "fromRepositories" []) ;;
  ret (PyJava r).

(** [Engine.save_metadata(path, db_name='engine_metadata.db')] *)
Definition Engine_save_metadata (self : engine J) (path db_name : pyval J)
  : M J W (pyval J) :=
  call (mkCall (__engine self) "saveMetadata" [path; db_name]) ;;;
  ret PyNone.

End Engine.

(** The exception that leaves the [except TypeError] clause of
    [Engine.__init__] entered with [e]. *)
Definition handler_outcome (e : pyexc) : pyexc :=
  match exc_args e with
  | [] => mkExc (OtherError "IndexError") "tuple index out of range"
  | first :: _ =>
      match py_in "JavaPackage" first with
      | inl failed => failed
      | inr true => mkExc Exception package_missing_message
      | inr false => e
      end
  end.

(** ** class SourcedDataFrame and its subclasses *)

Section Proxies.

Context {J W : Type} {E : External J W}.

(** A method of a Python class: [self], then the arguments. *)
Definition pymethod : Type := pyval J -> pyargs J -> M J W (pyval J).

(** [SourcedDataFrame.__init__(self, jdf, session, implicits)], reached by
    the constructor of every subclass: [k] is the class instantiated. *)
Definition SourcedDataFrame___init__ (k : klass) (jdf : J)
           (session : SparkSession J) (implicits : J) : proxy J :=
  mkProxy k jdf session implicits.

(** Attribute reads on an arbitrary value. *)
Definition no_attribute {A} (attr : string) : M J W A :=
  raise (mkExc AttributeError ("object has no attribute '" ++ attr ++ "'")).

(** The attribute [_jdf], which [DataFrame.__init__] sets on every
    dataframe and nothing else carries. *)
Definition dataframe_jdf (v : pyval J) : option J :=
  match v with
  | PyDataFrame jdf _ => Some jdf
  | PyProxy p => Some (_jdf p)
  | _ => None
  end.

Definition getattr__jdf (v : pyval J) : M J W J :=
  match dataframe_jdf v with
  | Some jdf => ret jdf
  | None => no_attribute "_jdf"
  end.

Definition getattr__session (v : pyval J) : M J W (SparkSession J) :=
  match v with
  | PyProxy p => ret (_session p)
  | _ => no_attribute "_session"
  end.

Definition getattr__implicits (v : pyval J) : M J W J :=
  match v with
  | PyProxy p => ret (_implicits p)
  | _ => no_attribute "_implicits"
  end.

(** [self.__class__(jdf, session, implicits)] *)
Definition instantiate_class_of (self : pyval J) (jdf : J)
           (session : SparkSession J) (implicits : J) : M J W (pyval J) :=
  match self with
  | PyProxy p =>
      ret (PyProxy (SourcedDataFrame___init__ (__class__ p) jdf session implicits))
  | _ => raise (mkExc TypeError "constructor takes no such arguments")
  end.

(** [self.__class__ != SourcedDataFrame] *)
Definition class_ne_SourcedDataFrame (self : pyval J) : bool :=
  match type_of self with
  | T_Sourced SourcedDataFrame => false
  | _ => true
  end.

(** The property [_engine_dataframe]:
    [self._implicits.EngineDataFrame(self._jdf)]. *)
Definition EngineDataFrame_call (self : proxy J) : jcall J :=
  mkCall (_implicits self) "EngineDataFrame" [PyJava (_jdf self)].

Definition _engine_dataframe (self : proxy J) : M J W J :=
  call (EngineDataFrame_call self).

(** The closure [_wrapper] that [__generate_method] builds around the
    [DataFrame] method [func]. *)
Definition _wrapper (func : pyval J -> pyargs J -> ext W (pyval J)) : pymethod :=
  fun self a =>
    dataframe <- lift (func self a) ;;
    if class_ne_SourcedDataFrame self
       && isinstance self (T_Sourced SourcedDataFrame)
       && isinstance dataframe T_DataFrame
    then
      jdf <- getattr__jdf dataframe ;;
      session <- getattr__session self ;;
      implicits <- getattr__implicits self ;;
      instantiate_class_of self jdf session implicits
    else ret dataframe.

(** [__generate_method(name)].  When the lookup fails, the function built in
    the [except AttributeError as e] clause is [raise e]; Python 3 unbinds
    [e] when the clause is left, so calling that function raises a
    [NameError] (worded as CPython 3.4 to 3.10 word it), not the error of
    the lookup. *)
Definition __generate_method (name : string) : pymethod :=
  match DataFrame_getattr name with
  | None =>
      fun self a =>
        raise (mkExc (OtherError "NameError")
                     "free variable 'e' referenced before assignment in enclosing scope")
  | Some func => _wrapper func
  end.

End Proxies.

(** The class body of [SourcedDataFrame]: each attribute and the [DataFrame]
    method it wraps ([drop_duplicates], [orderBy] and [where] are aliases). *)
Definition generic_methods : list (string * string) :=
  [ ("alias", "alias"); ("checkpoint", "checkpoint"); ("coalesce", "coalesce");
    ("crossJoin", "crossJoin"); ("crosstab", "crosstab");
    ("describe", "describe"); ("distinct", "distinct");
    ("dropDuplicates", "dropDuplicates"); ("drop_duplicates", "dropDuplicates");
    ("drop", "drop"); ("dropna", "dropna"); ("fillna", "fillna");
    ("filter", "filter"); ("freqItems", "freqItems"); ("hint", "hint");
    ("intersect", "intersect"); ("join", "join"); ("limit", "limit");
    ("randomSplit", "randomSplit"); ("repartition", "repartition");
    ("replace", "replace"); ("sampleBy", "sampleBy"); ("sample", "sample");
    ("selectExpr", "selectExpr"); ("select", "select"); ("sort", "sort");
    ("orderBy", "sort"); ("sortWithinPartitions", "sortWithinPartitions");
    ("subtract", "subtract"); ("summary", "summary"); ("toDF", "toDF");
    ("unionByName", "unionByName"); ("union", "union"); ("where", "filter");
    ("withColumn", "withColumn"); ("withColumnRenamed", "withColumnRenamed");
    ("withWatermark", "withWatermark") ].

(** The [DataFrame] method behind a generic attribute of the class. *)
Fixpoint wrapped_name (attr : string) (table : list (string * string))
  : option string :=
  match table with
  | [] => None
  | (a, name) :: rest =>
      if String.eqb a attr then Some name else wrapped_name attr rest
  end.

Section GenericMethods.

Context {J W : Type} {E : External J W}.

(** [getattr(SourcedDataFrame, attr)] for a generic attribute. *)
Definition SourcedDataFrame_generic (attr : string) : option pymethod :=
  match wrapped_name attr generic_methods with
  | Some name => Some (__generate_method name)
  | None => None
  end.

Definition SourcedDataFrame_filter : pymethod := __generate_method "filter".

End GenericMethods.

Section Navigation.

Context {J W : Type} {E : External J W}.

(** One request on the engine view of [self]'s handle, wrapped in class
    [k]: the shape [K(self._engine_dataframe.m(a...), self._session,
    self._implicits)] shared by the navigation methods. *)
Definition engine_request (k : klass) (m : string) (a : list (pyval J))
           (self : proxy J) : M J W (proxy J) :=
  edf <- _engine_dataframe self ;;
  jdf <- call (mkCall edf m a) ;;
  ret (SourcedDataFrame___init__ k jdf (_session self) (_implicits self)).

(** *** class RepositoriesDataFrame *)

Definition RepositoriesDataFrame_references :=
  engine_request ReferencesDataFrame "getReferences" [].

Definition RepositoriesDataFrame_remote_references :=
  engine_request ReferencesDataFrame "getRemoteReferences" [].

Definition RepositoriesDataFrame_head_ref (self : proxy J) : M J W (proxy J) :=
  edf <- _engine_dataframe self ;;
  refs <- call (mkCall edf "getReferences" []) ;;
  jdf <- call (mkCall refs "getHEAD" []) ;;
  ret (SourcedDataFrame___init__ ReferencesDataFrame jdf
                                 (_session self) (_implicits self)).

Definition RepositoriesDataFrame_master_ref (self : proxy J) : M J W (proxy J) :=
  edf <- _engine_dataframe self ;;
  refs <- call (mkCall edf "getReferences" []) ;;
  jdf <- call (mkCall refs "getHEAD" []) ;;
  ret (SourcedDataFrame___init__ ReferencesDataFrame jdf
                                 (_session self) (_implicits self)).

(** *** class ReferencesDataFrame *)

Definition ReferencesDataFrame_remote_references :=
  engine_request ReferencesDataFrame "getRemoteReferences" [].

Definition ReferencesDataFrame_head_ref :=
  engine_request ReferencesDataFrame "getHEAD" [].

(** The second [return] of the source, [self.ref('refs/heads/master')], is
    never reached. *)
Definition ReferencesDataFrame_master_ref :=
  engine_request ReferencesDataFrame "getMaster" [].

(** [ReferencesDataFrame(self.filter(self.name == ref)._jdf, ...)] *)
Definition ReferencesDataFrame_ref (self : proxy J) (ref : pyval J)
  : M J W (proxy J) :=
  name <- lift (DataFrame___getattr__ (PyProxy self) "name") ;;
  cond <- lift (Column___eq__ name ref) ;;
  filtered <- SourcedDataFrame_filter (PyProxy self) (mkArgs [cond] []) ;;
  jdf <- getattr__jdf filtered ;;
  ret (SourcedDataFrame___init__ ReferencesDataFrame jdf
                                 (_session self) (_implicits self)).

Definition ReferencesDataFrame_all_reference_commits :=
  engine_request CommitsDataFrame "getAllReferenceCommits" [].

Definition ReferencesDataFrame_commits :=
  engine_request CommitsDataFrame "getCommits" [].

Definition ReferencesDataFrame_blobs :=
  engine_request BlobsDataFrame "getBlobs" [].

(** *** class CommitsDataFrame *)

Definition CommitsDataFrame_all_reference_commits :=
  engine_request CommitsDataFrame "getAllReferenceCommits" [].

Definition CommitsDataFrame_tree_entries :=
  engine_request TreeEntriesDataFrame "getTreeEntries" [].

Definition CommitsDataFrame_blobs :=
  engine_request BlobsDataFrame "getBlobs" [].

(** *** class TreeEntriesDataFrame *)

Definition TreeEntriesDataFrame_blobs :=
  engine_request BlobsDataFrame "getBlobs" [].

(** *** class BlobsDataFrame *)

Definition BlobsDataFrame_classify_languages :=
  engine_request BlobsWithLanguageDataFrame "classifyLanguages" [].

Definition BlobsDataFrame_extract_uasts :=
  engine_request UASTsDataFrame "extractUASTs" [].

(** *** class BlobsWithLanguageDataFrame *)

Definition BlobsWithLanguageDataFrame_extract_uasts :=
  engine_request UASTsDataFrame "extractUASTs" [].

(** *** class UASTsDataFrame *)

(** [query_uast(query, query_col='uast', output_col='result')] *)
Definition UASTsDataFrame_query_uast (query query_col output_col : pyval J) :=
  engine_request UASTsDataFrame "queryUAST" [query; query_col; output_col].

(** [extract_tokens(input_col='result', output_col='tokens')] *)
Definition UASTsDataFrame_extract_tokens (input_col output_col : pyval J) :=
  engine_request UASTsDataFrame "extractTokens" [input_col; output_col].

End Navigation.

(** *** Attribute lookup *)

(** The navigation attributes of the module, with the arguments of the
    three that are methods rather than properties. *)
Inductive navigation (J : Type) : Type :=
| references
| remote_references
| head_ref
| master_ref
| ref (name : pyval J)
| all_reference_commits
| commits
| tree_entries
| blobs
| classify_languages
| extract_uasts
| query_uast (query query_col output_col : pyval J)
| extract_tokens (input_col output_col : pyval J).

Arguments references {J}.
Arguments remote_references {J}.
Arguments head_ref {J}.
Arguments master_ref {J}.
Arguments ref {J}.
Arguments all_reference_commits {J}.
Arguments commits {J}.
Arguments tree_entries {J}.
Arguments blobs {J}.
Arguments classify_languages {J}.
Arguments extract_uasts {J}.
Arguments query_uast {J}.
Arguments extract_tokens {J}.

Section Lookup.

Context {J W : Type} {E : External J W}.

(** The navigation attribute [n] as class [k] defines it.  The subclasses
    derive from [SourcedDataFrame] directly, so none inherits a navigation
    from another. *)
Definition navigation_method (k : klass) (n : navigation J)
  : option (proxy J -> M J W (proxy J)) :=
  match k, n with
  | RepositoriesDataFrame, references => Some RepositoriesDataFrame_references
  | RepositoriesDataFrame, remote_references =>
      Some RepositoriesDataFrame_remote_references
  | RepositoriesDataFrame, head_ref => Some RepositoriesDataFrame_head_ref
  | RepositoriesDataFrame, master_ref => Some RepositoriesDataFrame_master_ref
  | ReferencesDataFrame, remote_references =>
      Some ReferencesDataFrame_remote_references
  | ReferencesDataFrame, head_ref => Some ReferencesDataFrame_head_ref
  | ReferencesDataFrame, master_ref => Some ReferencesDataFrame_master_ref
  | ReferencesDataFrame, ref name =>
      Some (fun self => ReferencesDataFrame_ref self name)
  | ReferencesDataFrame, all_reference_commits =>
      Some ReferencesDataFrame_all_reference_commits
  | ReferencesDataFrame, commits => Some ReferencesDataFrame_commits
  | ReferencesDataFrame, blobs => Some ReferencesDataFrame_blobs
  | CommitsDataFrame, all_reference_commits =>
      Some CommitsDataFrame_all_reference_commits
  | CommitsDataFrame, tree_entries => Some CommitsDataFrame_tree_entries
  | CommitsDataFrame, blobs => Some CommitsDataFrame_blobs
  | TreeEntriesDataFrame, blobs => Some TreeEntriesDataFrame_blobs
  | BlobsDataFrame, classify_languages => Some BlobsDataFrame_classify_languages
  | BlobsDataFrame, extract_uasts => Some BlobsDataFrame_extract_uasts
  | BlobsWithLanguageDataFrame, extract_uasts =>
      Some BlobsWithLanguageDataFrame_extract_uasts
  | UASTsDataFrame, query_uast q qc oc => Some (UASTsDataFrame_query_uast q qc oc)
  | UASTsDataFrame, extract_tokens ic oc =>
      Some (UASTsDataFrame_extract_tokens ic oc)
  | _, _ => None
  end.

(** [self.n] (or [self.n(...)]) on a proxy: the method is looked up in the
    class of [self].  A name the class does not define is reported as an
    [AttributeError]; pyspark's fallback to a column of that name is left
    out. *)
Definition send (self : proxy J) (n : navigation J) : M J W (proxy J) :=
  match navigation_method (__class__ self) n with
  | Some f => f self
  | None => no_attribute "navigation"
  end.

End Lookup.

(** The [:rtype:] the docstring of each navigation declares. *)
Definition rtype {J} (k : klass) (n : navigation J) : option klass :=
  match k, n with
  | RepositoriesDataFrame, (references | remote_references | head_ref | master_ref) =>
      Some ReferencesDataFrame
  | ReferencesDataFrame, (remote_references | head_ref | master_ref | ref _) =>
      Some ReferencesDataFrame
  | ReferencesDataFrame, (all_reference_commits | commits) => Some CommitsDataFrame
  | ReferencesDataFrame, blobs => Some BlobsDataFrame
  | CommitsDataFrame, all_reference_commits => Some CommitsDataFrame
  | CommitsDataFrame, tree_entries => Some TreeEntriesDataFrame
  | CommitsDataFrame, blobs => Some BlobsDataFrame
  | TreeEntriesDataFrame, blobs => Some BlobsDataFrame
  | BlobsDataFrame, classify_languages => Some BlobsWithLanguageDataFrame
  | BlobsDataFrame, extract_uasts => Some UASTsDataFrame
  | BlobsWithLanguageDataFrame, extract_uasts => Some UASTsDataFrame
  | UASTsDataFrame, (query_uast _ _ _ | extract_tokens _ _) => Some UASTsDataFrame
  | _, _ => None
  end.

(** ** Requests for derived handles *)

(** The methods of the engine's dataframe view that answer with a new
    tabular handle.  [EngineDataFrame], which only builds that view around a
    handle the caller already holds, is not one of them. *)
Definition handle_methods : list string :=
  [ "getReferences"; "getRemoteReferences"; "getHEAD"; "getMaster";
    "getAllReferenceCommits"; "getCommits"; "getTreeEntries"; "getBlobs";
    "classifyLanguages"; "extractUASTs"; "queryUAST"; "extractTokens" ].

Definition is_handle_request {J} (c : jcall J) : bool :=
  existsb (String.eqb (method c)) handle_methods.

Definition handle_requests {J} (l : list (jcall J)) : list (jcall J) :=
  filter is_handle_request l.

(** How a navigation obtains its handle: by one request on the engine view
    of its own handle, by a second request chained on the answer of the
    first, or by the generic [filter]. *)
Inductive request_shape : Type :=
| single_request
| chained_requests
| delegates_to_filter.

Definition shape_of {J} (k : klass) (n : navigation J) : request_shape :=
  match k, n with
  | RepositoriesDataFrame, (head_ref | master_ref) => chained_requests
  | _, ref _ => delegates_to_filter
  | _, _ => single_request
  end.

(** The reference name the docstring of [ReferencesDataFrame.ref] uses for
    HEAD. *)
Definition HEAD_name {J} : pyval J := PyStr "refs/heads/HEAD".

(** The bridge answers every request with an object. *)
Definition responsive {J W} (E : External J W) : Prop :=
  forall c w, exists w' j, invoke c w = (w', inr j).

(** pyspark builds column expressions and has a [filter] that answers with
    a dataframe. *)
Definition spark_responsive {J W} (E : External J W) : Prop :=
  (forall self n w, exists w' c, DataFrame___getattr__ self n w = (w', inr c)) /\
  (forall c v w, exists w' c', Column___eq__ c v w = (w', inr c')) /\
  (exists func,
      DataFrame_getattr "filter" = Some func /\
      forall self a w,
      exists w' d, func self a w = (w', inr d) /\ isinstance d T_DataFrame = true).


(** ** Recording doubles of the foreign components *)

Module Double.

(** A handle is the history of the requests that produced it. *)
Definition handle : Type := list string.

Definition show (v : pyval handle) : string :=
  match v with
  | PyStr s => s
  | PyJava j | PyColumn j => String.concat "." j
  | _ => "?"
  end.

(** The engine: [EngineDataFrame(jdf)] views [jdf] itself, any other
    request extends the history of its target.  The world counts the
    requests executed. *)
Definition engine_invoke (c : jcall handle) : ext nat handle :=
  fun w =>
    (S w,
     inr (if String.eqb (method c) "EngineDataFrame"
          then match jargs c with
               | [PyJava jdf] => jdf
               | _ => target c
               end
          else (target c ++ [method c])%list)).

(** An engine whose jar is not on the class path: py4j resolves
    [tech.sourced.engine.Engine] to a package, and calling it fails. *)
Definition engine_without_jar (c : jcall handle) : ext nat handle :=
  fun w =>
    if String.eqb (method c) "tech.sourced.engine.Engine.apply"
    then (w, inl (mkExc TypeError "'JavaPackage' object is not callable"))
    else engine_invoke c w.

(** An engine that rejects the repositories path. *)
Definition engine_bad_path (c : jcall handle) : ext nat handle :=
  fun w =>
    if String.eqb (method c) "tech.sourced.engine.Engine.apply"
    then (w, inl (mkExc Py4JJavaError "An error occurred while calling apply"))
    else engine_invoke c w.

Definition jdf_of (v : pyval handle) : handle :=
  match v with
  | PyDataFrame jdf _ => jdf
  | PyProxy p => _jdf p
  | _ => []
  end.

Definition session_of (v : pyval handle) : SparkSession handle :=
  match v with
  | PyDataFrame _ s => s
  | PyProxy p => _session p
  | _ => mkSession [] []
  end.

(** A [DataFrame] method of pyspark: [randomSplit] answers with a list of
    dataframes, the others with one dataframe. *)
Definition spark_call (name : string)
  : pyval handle -> pyargs handle -> ext nat (pyval handle) :=
  fun self a w =>
    let step :=
      name ++ "(" ++ String.concat ", " (map show (args a)) ++ ")" in
    let derived :=
      PyDataFrame (jdf_of self ++ [step])%list (session_of self) in
    (w, inr (if String.eqb name "randomSplit"
             then PyList [derived; derived]
             else derived)).

(** pyspark 2.2: every wrapped method but [summary] exists. *)
Definition spark_method (name : string)
  : option (pyval handle -> pyargs handle -> ext nat (pyval handle)) :=
  if String.eqb name "summary" then None else Some (spark_call name).

Definition spark_column (self : pyval handle) (name : string)
  : ext nat (pyval handle) :=
  fun w => (w, inr (PyColumn [name])).

Definition spark_eq (col value : pyval handle) : ext nat (pyval handle) :=
  fun w => (w, inr (PyColumn [show col ++ " == " ++ show value])).

Definition make (inv : jcall handle -> ext nat handle) : External handle nat :=
  {| invoke := inv;
     java_import := fun _ _ w => (w, inr tt);
     conf_set := fun _ _ _ w => (w, inr tt);
     DataFrame_getattr := spark_method;
     DataFrame___getattr__ := spark_column;
     Column___eq__ := spark_eq |}.

Definition recording : External handle nat := make engine_invoke.
Definition without_jar : External handle nat := make engine_without_jar.
Definition bad_path : External handle nat := make engine_bad_path.

(** Sample objects. *)
Definition spark : SparkSession handle := mkSession ["jsparkSession"] ["jvm"].
Definition initial : state handle nat := mkState 0 [].

Definition an_engine : engine handle :=
  mkEngine spark ["jsparkSession"] ["jvm"] ["engine"] ["implicits"].

Definition a_proxy (k : klass) : proxy handle :=
  mkProxy k ["df"] spark ["implicits"].

End Double.

(** ** Chains of operations and default arguments *)

(** A parameter with a default value: [None] when the caller leaves it
    out. *)
Definition with_default {A} (default : A) (given : option A) : A :=
  match given with
  | Some a => a
  | None => default
  end.

(** The class a path of navigations leads to, by the declared return
    types. *)
Fixpoint route {J} (k : klass) (ns : list (navigation J)) : option klass :=
  match ns with
  | [] => Some k
  | n :: rest =>
      match rtype k n with
      | Some d => route d rest
      | None => None
      end
  end.

(** The derived-handle requests of one navigation, by its shape. *)
Definition step_requests {J} (k : klass) (n : navigation J) : nat :=
  match shape_of k n with
  | single_request => 1
  | chained_requests => 2
  | delegates_to_filter => 0
  end.

(** The derived-handle requests of a path of navigations from class [k]. *)
Fixpoint path_requests {J} (k : klass) (ns : list (navigation J)) : nat :=
  match ns with
  | [] => 0
  | n :: rest =>
      step_requests k n +
      match rtype k n with
      | Some d => path_requests d rest
      | None => 0
      end
  end.

Section Chains.

Context {J W : Type} {E : External J W}.

(** [self.n1.n2...]: a path of navigations, each looked up in the class of
    the proxy the one before returned. *)
Fixpoint follow (ns : list (navigation J)) (self : proxy J) : M J W (proxy J) :=
  match ns with
  | [] => ret self
  | n :: rest => p <- send self n ;; follow rest p
  end.

(** [self.g1(a1).g2(a2)...]: a run of generic operations in which every
    answer but the last is a proxy again.  [generic_steps self st ops v st']
    holds when the run from [self] in state [st] returns [v] and leaves
    [st']. *)
Inductive generic_steps
  : proxy J -> state J W -> list (string * pyargs J) -> pyval J -> state J W -> Prop :=
| steps_done self st :
    generic_steps self st [] (PyProxy self) st
| steps_last self st attr a g v st' :
    SourcedDataFrame_generic attr = Some g ->
    g (PyProxy self) a st = (st', inr v) ->
    generic_steps self st [(attr, a)] v st'
| steps_more self st attr a g p st1 rest v st' :
    SourcedDataFrame_generic attr = Some g ->
    g (PyProxy self) a st = (st1, inr (PyProxy p)) ->
    generic_steps p st1 rest v st' ->
    generic_steps self st ((attr, a) :: rest) v st'.

(** [Engine.save_metadata] and [Engine.from_metadata] with the default of
    their [db_name] parameter. *)
Definition default_db_name : pyval J := PyStr "engine_metadata.db".

Definition Engine_save_metadata_kw (self : engine J) (path : pyval J)
           (db_name : option (pyval J)) : M J W (pyval J) :=
  Engine_save_metadata self path (with_default default_db_name db_name).

Definition Engine_from_metadata_kw (self : engine J) (db_path : pyval J)
           (db_name : option (pyval J)) : M J W (pyval J) :=
  Engine_from_metadata self db_path (with_default default_db_name db_name).

(** [UASTsDataFrame.query_uast] and [UASTsDataFrame.extract_tokens] with
    the defaults of their column parameters. *)
Definition UASTsDataFrame_query_uast_kw (query : pyval J)
           (query_col output_col : option (pyval J)) :=
  UASTsDataFrame_query_uast query
                            (with_default (PyStr "uast") query_col)
                            (with_default (PyStr "result") output_col).

Definition UASTsDataFrame_extract_tokens_kw
           (input_col output_col : option (pyval J)) :=
  UASTsDataFrame_extract_tokens (with_default (PyStr "result") input_col)
                                (with_default (PyStr "tokens") output_col).

End Chains.

(** [needle] occurs in [s] as a run of consecutive characters. *)
Definition occurs_in (needle s : string) : Prop :=
  exists before after, s = before ++ needle ++ after.

(** The requests of a run from [st] to [st'] are at most one, addressed
    to [j]. *)
Definition at_most_one_request_to {J W} (j : J) (st st' : state J W) : Prop :=
  new_calls st st' = [] \/
  exists m a, new_calls st st' = [mkCall j m a].

(** ** Doubles that fail *)

Module Faulty.

(** An engine that is created but whose [skipCleanup] fails the way a call
    on a missing class does. *)
Definition engine_rejecting_skipCleanup (c : jcall Double.handle)
  : ext nat Double.handle :=
  fun w =>
    if String.eqb (method c) "skipCleanup"
    then (w, inl (mkExc TypeError "'JavaPackage' object is not callable"))
    else Double.engine_invoke c w.

Definition rejecting_skipCleanup : External Double.handle nat :=
  Double.make engine_rejecting_skipCleanup.

(** The exception of a [join] on a column that does not exist. *)
Definition analysis_exception : pyexc :=
  mkExc Py4JJavaError "AnalysisException: cannot resolve column".

(** A pyspark whose [join] raises. *)
Definition spark_failing_join (name : string)
  : option (pyval Double.handle -> pyargs Double.handle ->
            ext nat (pyval Double.handle)) :=
  if String.eqb name "join"
  then Some (fun _ _ w => (S w, inl analysis_exception))
  else Double.spark_method name.

Definition failing_join : External Double.handle nat :=
  {| invoke := Double.engine_invoke;
     java_import := fun _ _ w => (w, inr tt);
     conf_set := fun _ _ _ w => (w, inr tt);
     DataFrame_getattr := spark_failing_join;
     DataFrame___getattr__ := Double.spark_column;
     Column___eq__ := Double.spark_eq |}.

End Faulty.

(** An engine whose answer to the request for the engine is a [TypeError]
    raised without arguments. *)
Module Bare.

Definition bare_type_error : pyexc := mkException TypeError [].

Definition engine_raising_bare (c : jcall Double.handle) : ext nat Double.handle :=
  fun w =>
    if String.eqb (method c) "tech.sourced.engine.Engine.apply"
    then (w, inl bare_type_error)
    else Double.engine_invoke c w.

Definition raising_bare : External Double.handle nat :=
  Double.make engine_raising_bare.

End Bare.

(** A double whose external world is the configuration of the session:
    the keys set on it, with their values, oldest first. *)
Module Configured.

Definition settings : Type := list (string * string).

Definition external : External Double.handle settings :=
  {| invoke := fun c w => (w, snd (Double.engine_invoke c 0));
     java_import := fun _ _ w => (w, inr tt);
     conf_set := fun _ key value w =>
                   ((w ++ [(key, Double.show value)])%list, inr tt);
     DataFrame_getattr := fun _ => None;
     DataFrame___getattr__ :=
       fun _ name w => (w, inl (mkExc AttributeError name));
     Column___eq__ :=
       fun _ _ w => (w, inl (mkExc TypeError "unsupported comparison")) |}.

End Configured.

(** ** The effect of requests on the external world *)

Section Replay.

Context {J W : Type} {E : External J W}.

(** The external world after the requests [calls], executed in this order
    from [w]. *)
Fixpoint replay (calls : list (jcall J)) (w : W) : W :=
  match calls with
  | [] => w
  | c :: rest => replay rest (fst (invoke c w))
  end.

End Replay.

(** ** An engine over tables of rows *)

Module Tabular.

(** A row: its cells by column name. *)
Definition row : Type := list (string * string).

Fixpoint cell (column : string) (r : row) : option string :=
  match r with
  | [] => None
  | (c, v) :: rest => if String.eqb c column then Some v else cell column rest
  end.

(** The row has [value] in [column]. *)
Definition has (column value : string) (r : row) : bool :=
  match cell column r with
  | Some v => String.eqb v value
  | None => false
  end.

(** The objects behind the bridge: a dataframe, the engine view of a
    dataframe, a column, the comparison of a column with a value, and the
    rest. *)
Inductive jobject : Type :=
| Table (rows : list row)
| View (rows : list row)
| ColumnOf (column : string)
| Equals (column value : string)
| Other.

(** Modelled from the spec: the engine's dataframe view, the JVM code that
    answers [EngineDataFrame], [getHEAD], [getMaster] and the other
    requests, which is not under src/.  By the words of the source for its
    two reference shortcuts ("filters the current DataFrame to only contain
    those rows whose reference is HEAD", respectively "is master"),
    [getHEAD] keeps the rows whose [name] is [refs/heads/HEAD] and
    [getMaster] those whose [name] is [refs/heads/master]; what any other
    request computes from the rows is left open ([derive]). *)
Definition engine (derive : string -> list row -> list row)
           (c : jcall jobject) : ext unit jobject :=
  fun w =>
    (w,
     if String.eqb (method c) "EngineDataFrame"
     then match jargs c with
          | [PyJava (Table rows)] => inr (View rows)
          | _ => inl (mkExc Py4JError "EngineDataFrame expects a dataframe")
          end
     else match target c with
          | View rows =>
              if String.eqb (method c) "getHEAD"
              then inr (Table (filter (has "name" "refs/heads/HEAD") rows))
              else if String.eqb (method c) "getMaster"
                   then inr (Table (filter (has "name" "refs/heads/master") rows))
                   else inr (Table (derive (method c) rows))
          | _ => inl (mkExc Py4JError "no such method")
          end).

(** Modelled from the spec: the generic filter that [ref] is sugar for,
    "constrained to the reference-name column".  [df.name] is the column
    [name], comparing it with a string gives the comparison, and [filter]
    on a comparison keeps the rows that have the value in the column. *)
Definition column (self : pyval jobject) (name : string)
  : ext unit (pyval jobject) :=
  fun w => (w, inr (PyColumn (ColumnOf name))).

Definition equals (col value : pyval jobject) : ext unit (pyval jobject) :=
  fun w =>
    (w,
     match col, value with
     | PyColumn (ColumnOf c), PyStr v => inr (PyColumn (Equals c v))
     | _, _ => inl (mkExc TypeError "unsupported comparison")
     end).

Definition filter_rows (self : pyval jobject) (a : pyargs jobject)
  : ext unit (pyval jobject) :=
  fun w =>
    (w,
     match self, args a with
     | PyProxy p, [PyColumn (Equals c v)] =>
         match _jdf p with
         | Table rows => inr (PyDataFrame (Table (filter (has c v) rows))
                                          (_session p))
         | _ => inl (mkExc Py4JError "not a dataframe")
         end
     | PyDataFrame (Table rows) sql_ctx, [PyColumn (Equals c v)] =>
         inr (PyDataFrame (Table (filter (has c v) rows)) sql_ctx)
     | _, _ => inl (mkExc TypeError "condition should be string or Column")
     end).

Definition external (derive : string -> list row -> list row)
  : External jobject unit :=
  {| invoke := engine derive;
     java_import := fun _ _ w => (w, inr tt);
     conf_set := fun _ _ _ w => (w, inr tt);
     DataFrame_getattr :=
       fun name => if String.eqb name "filter" then Some filter_rows else None;
     DataFrame___getattr__ := column;
     Column___eq__ := equals |}.

End Tabular.

(** * Properties *)

(** ** Basic facts about runs *)

Lemma new_calls_app {J W} (w w' : W) (l added : list (jcall J)) :
  new_calls (mkState w l) (mkState w' (l ++ added)) = added.
Proof.
  unfold new_calls; simpl.
  induction l as [|c l IH]; simpl; auto.
Qed.

Lemma new_calls_app2 {J W} (w w' : W) (l a b : list (jcall J)) :
  new_calls (mkState w l) (mkState w' ((l ++ a) ++ b)) = (a ++ b)%list.
Proof.
  rewrite <- app_assoc. apply new_calls_app.
Qed.

Lemma new_calls_same {J W} (w w' : W) (l : list (jcall J)) :
  new_calls (mkState w l) (mkState w' l) = [].
Proof.
  unfold new_calls; simpl.
  induction l as [|c l IH]; simpl; auto.
Qed.

Lemma new_calls_of_app {J W} (st st' : state J W) (added : list (jcall J)) :
  trace st' = (trace st ++ added)%list -> new_calls st st' = added.
Proof.
  destruct st as [w l], st' as [w' l']. simpl. intros ->. apply new_calls_app.
Qed.

Lemma new_calls_refl {J W} (st : state J W) : new_calls st st = [].
Proof.
  destruct st as [w l]. apply new_calls_same.
Qed.

Lemma str_contains_prefix (needle s : string) :
  String.prefix needle s = true -> str_contains needle s = true.
Proof.
  intros H. destruct s; simpl in *; rewrite H; reflexivity.
Qed.

Section RunFacts.

Context {J W : Type} {E : External J W}.

Lemma call_run (c : jcall J) (st : state J W) :
  call c st =
  (mkState (fst (invoke c (world st))) (trace st ++ [c]),
   snd (invoke c (world st))).
Proof.
  unfold call. destruct (invoke c (world st)); reflexivity.
Qed.

Lemma call_returns (c : jcall J) (st st' : state J W) (j : J) :
  call c st = (st', inr j) ->
  exists w', invoke c (world st) = (w', inr j) /\
             st' = mkState w' (trace st ++ [c]).
Proof.
  unfold call. destruct (invoke c (world st)) as [w' r].
  intros H; inversion H; subst. eauto.
Qed.

Lemma bind_returns {A B} (m : M J W A) (k : A -> M J W B) st st' b :
  bind m k st = (st', inr b) ->
  exists st1 a, m st = (st1, inr a) /\ k a st1 = (st', inr b).
Proof.
  unfold bind. destruct (m st) as [st1 [e|a]]; intros H.
  - discriminate.
  - eauto.
Qed.

Lemma lift_returns {A} (f : ext W A) (st st' : state J W) (a : A) :
  lift f st = (st', inr a) ->
  exists w', f (world st) = (w', inr a) /\ st' = mkState w' (trace st).
Proof.
  unfold lift. destruct (f (world st)) as [w' r].
  intros H; inversion H; subst. eauto.
Qed.

(** A navigation of the common shape returns exactly when both requests
    are answered, and then the trace has grown by these two requests. *)
Lemma engine_request_returns k m a (self : proxy J) st st' p :
  engine_request k m a self st = (st', inr p) ->
  exists w1 edf w2 jdf,
    invoke (EngineDataFrame_call self) (world st) = (w1, inr edf) /\
    invoke (mkCall edf m a) w1 = (w2, inr jdf) /\
    st' = mkState w2 (trace st ++ [EngineDataFrame_call self; mkCall edf m a]) /\
    p = mkProxy k jdf (_session self) (_implicits self).
Proof.
  unfold engine_request, _engine_dataframe. intros H.
  apply bind_returns in H as (st1 & edf & H1 & H).
  apply bind_returns in H as (st2 & jdf & H2 & H).
  apply call_returns in H1 as (w1 & I1 & ->).
  apply call_returns in H2 as (w2 & I2 & ->).
  simpl in I2. inversion H; subst.
  exists w1, edf, w2, jdf. simpl. rewrite <- app_assoc. auto.
Qed.

Lemma engine_request_total k m a (self : proxy J) st :
  responsive E ->
  exists st' p, engine_request k m a self st = (st', inr p) /\ __class__ p = k.
Proof.
  intros R. unfold engine_request, _engine_dataframe, bind.
  rewrite call_run.
  destruct (R (EngineDataFrame_call self) (world st)) as (w1 & edf & ->). simpl.
  rewrite call_run. simpl.
  destruct (R (mkCall edf m a) w1) as (w2 & jdf & ->). simpl.
  eexists _, _. split; reflexivity.
Qed.

(** The two chained requests of the repository-level HEAD navigation. *)
Lemma head_ref_returns (self : proxy J) st st' p :
  RepositoriesDataFrame_head_ref self st = (st', inr p) ->
  exists w1 edf w2 refs w3 jdf,
    invoke (EngineDataFrame_call self) (world st) = (w1, inr edf) /\
    invoke (mkCall edf "getReferences" []) w1 = (w2, inr refs) /\
    invoke (mkCall refs "getHEAD" []) w2 = (w3, inr jdf) /\
    st' = mkState w3 (trace st ++ [EngineDataFrame_call self;
                                   mkCall edf "getReferences" [];
                                   mkCall refs "getHEAD" []]) /\
    p = mkProxy ReferencesDataFrame jdf (_session self) (_implicits self).
Proof.
  unfold RepositoriesDataFrame_head_ref, _engine_dataframe. intros H.
  apply bind_returns in H as (st1 & edf & H1 & H).
  apply bind_returns in H as (st2 & refs & H2 & H).
  apply bind_returns in H as (st3 & jdf & H3 & H).
  apply call_returns in H1 as (w1 & I1 & ->).
  apply call_returns in H2 as (w2 & I2 & ->).
  apply call_returns in H3 as (w3 & I3 & ->).
  simpl in I2, I3. inversion H; subst.
  exists w1, edf, w2, refs, w3, jdf. simpl.
  repeat rewrite <- app_assoc. auto 6.
Qed.

Lemma head_ref_total (self : proxy J) st :
  responsive E ->
  exists st' p, RepositoriesDataFrame_head_ref self st = (st', inr p) /\
                __class__ p = ReferencesDataFrame.
Proof.
  intros R. unfold RepositoriesDataFrame_head_ref, _engine_dataframe, bind.
  rewrite call_run.
  destruct (R (EngineDataFrame_call self) (world st)) as (w1 & edf & ->). simpl.
  rewrite call_run. simpl.
  destruct (R (mkCall edf "getReferences" []) w1) as (w2 & refs & ->). simpl.
  rewrite call_run. simpl.
  destruct (R (mkCall refs "getHEAD" []) w2) as (w3 & jdf & ->). simpl.
  eexists _, _. split; reflexivity.
Qed.

End RunFacts.

(** ** The generic wrapper *)

Section WrapperFacts.

Context {J W : Type} {E : External J W}.

Variable func : pyval J -> pyargs J -> ext W (pyval J).

Lemma proxy_isinstance_Sourced (p : proxy J) :
  isinstance (PyProxy p) (T_Sourced SourcedDataFrame) = true.
Proof.
  unfold isinstance; simpl. destruct (__class__ p); reflexivity.
Qed.

Lemma class_ne_spec (p : proxy J) :
  class_ne_SourcedDataFrame (PyProxy p) = true <-> __class__ p <> SourcedDataFrame.
Proof.
  unfold class_ne_SourcedDataFrame; simpl.
  destruct (__class__ p); split; congruence.
Qed.

Lemma isinstance_DataFrame_jdf (v : pyval J) :
  isinstance v T_DataFrame = true -> exists jdf, dataframe_jdf v = Some jdf.
Proof.
  destruct v; simpl; try discriminate; eauto.
Qed.

(** The caller is the base class: the wrapper adds nothing to [func]. *)
Lemma wrapper_base (self : proxy J) a (st : state J W) :
  __class__ self = SourcedDataFrame ->
  _wrapper func (PyProxy self) a st = lift (func (PyProxy self) a) st.
Proof.
  intros K. unfold _wrapper, bind, class_ne_SourcedDataFrame. simpl.
  rewrite K. simpl.
  destruct (lift (func (PyProxy self) a) st) as [st' [e|v]]; reflexivity.
Qed.

(** The caller is specialised and [func] answers with a dataframe:
    the handle is wrapped again in the caller's class. *)
Lemma wrapper_rewraps (self : proxy J) a (st : state J W) w' dataframe jdf :
  __class__ self <> SourcedDataFrame ->
  func (PyProxy self) a (world st) = (w', inr dataframe) ->
  isinstance dataframe T_DataFrame = true ->
  dataframe_jdf dataframe = Some jdf ->
  _wrapper func (PyProxy self) a st =
  (mkState w' (trace st),
   inr (PyProxy (mkProxy (__class__ self) jdf (_session self) (_implicits self)))).
Proof.
  intros K F D Hj. unfold _wrapper, bind, lift. rewrite F.
  apply class_ne_spec in K. rewrite K, proxy_isinstance_Sourced, D. simpl.
  unfold getattr__jdf. rewrite Hj. reflexivity.
Qed.

(** Anything that is not a dataframe comes back as it is. *)
Lemma wrapper_passes (self : pyval J) a (st : state J W) w' v :
  func self a (world st) = (w', inr v) ->
  isinstance v T_DataFrame = false ->
  _wrapper func self a st = (mkState w' (trace st), inr v).
Proof.
  intros F D. unfold _wrapper, bind, lift. rewrite F, D.
  rewrite andb_false_r. reflexivity.
Qed.

Lemma wrapper_raises (self : pyval J) a (st : state J W) w' e :
  func self a (world st) = (w', inl e) ->
  _wrapper func self a st = (mkState w' (trace st), inl e).
Proof.
  intros F. unfold _wrapper, bind, lift. rewrite F. reflexivity.
Qed.

(** Whatever the wrapper returns for a specialised caller is either the
    non-tabular answer of [func] or a proxy of the caller's class with the
    caller's session and implicits; the trace is untouched. *)
Lemma wrapper_returns (self : proxy J) a (st st' : state J W) v :
  __class__ self <> SourcedDataFrame ->
  _wrapper func (PyProxy self) a st = (st', inr v) ->
  exists w' dataframe,
    func (PyProxy self) a (world st) = (w', inr dataframe) /\
    st' = mkState w' (trace st) /\
    ((isinstance dataframe T_DataFrame = false /\ v = dataframe) \/
     (exists jdf, dataframe_jdf dataframe = Some jdf /\
                  v = PyProxy (mkProxy (__class__ self) jdf
                                       (_session self) (_implicits self)))).
Proof.
  intros K H.
  destruct (func (PyProxy self) a (world st)) as [w' [e|d]] eqn:F.
  - rewrite (wrapper_raises _ _ _ _ _ F) in H. discriminate.
  - exists w', d. split; [reflexivity|].
    destruct (isinstance d T_DataFrame) eqn:D.
    + destruct (isinstance_DataFrame_jdf _ D) as [jdf Hj].
      rewrite (wrapper_rewraps _ _ _ _ _ _ K F D Hj) in H.
      inversion H; subst. split; [reflexivity|]. right; eauto.
    + rewrite (wrapper_passes _ _ _ _ _ F D) in H.
      inversion H; subst. split; [reflexivity|]. left; auto.
Qed.

End WrapperFacts.

(** ** The filter convenience [ref] *)

Section RefFacts.

Context {J W : Type} {E : External J W}.

(** The wrapper issues no request of its own. *)
Lemma wrapper_trace func (self : pyval J) a (st st' : state J W) r :
  _wrapper func self a st = (st', r) -> trace st' = trace st.
Proof.
  unfold _wrapper, bind, lift.
  destruct (func self a (world st)) as [w' [e|d]].
  - intros H; inversion H; reflexivity.
  - destruct (class_ne_SourcedDataFrame self
              && isinstance self (T_Sourced SourcedDataFrame)
              && isinstance d T_DataFrame).
    + unfold getattr__jdf, getattr__session, getattr__implicits,
        instantiate_class_of, no_attribute, ret, raise.
      destruct (dataframe_jdf d); [|intros H; inversion H; reflexivity].
      destruct self; intros H; inversion H; reflexivity.
    + unfold ret. intros H; inversion H; reflexivity.
Qed.

Lemma generated_trace name (self : pyval J) a (st st' : state J W) r :
  __generate_method name self a st = (st', r) -> trace st' = trace st.
Proof.
  unfold __generate_method. destruct (DataFrame_getattr name).
  - apply wrapper_trace.
  - unfold raise. intros H; inversion H; reflexivity.
Qed.

(** [ref] answers with a references proxy that carries the caller's
    session and implicits, and leaves the trace as it found it. *)
Lemma ref_returns (self : proxy J) name (st st' : state J W) p :
  ReferencesDataFrame_ref self name st = (st', inr p) ->
  trace st' = trace st /\
  exists jdf, p = mkProxy ReferencesDataFrame jdf (_session self) (_implicits self).
Proof.
  unfold ReferencesDataFrame_ref. intros H.
  apply bind_returns in H as (st1 & col & H1 & H).
  apply bind_returns in H as (st2 & cond & H2 & H).
  apply bind_returns in H as (st3 & filtered & H3 & H).
  apply bind_returns in H as (st4 & jdf & H4 & H).
  apply lift_returns in H1 as (w1 & _ & ->).
  apply lift_returns in H2 as (w2 & _ & ->).
  apply generated_trace in H3. simpl in H3.
  unfold getattr__jdf, no_attribute, ret, raise in H4.
  destruct (dataframe_jdf filtered); inversion H4; subst.
  inversion H; subst. split; [assumption|eauto].
Qed.

Lemma ref_total (self : proxy J) name (st : state J W) :
  spark_responsive E ->
  exists st' p, ReferencesDataFrame_ref self name st = (st', inr p) /\
                __class__ p = ReferencesDataFrame.
Proof.
  intros (Hcol & Heq & func & Hf & Hfilter).
  unfold ReferencesDataFrame_ref, SourcedDataFrame_filter, __generate_method.
  rewrite Hf. unfold bind at 1. unfold lift at 1.
  destruct (Hcol (PyProxy self) "name" (world st)) as (w1 & col & ->).
  unfold bind at 1. unfold lift at 1. simpl.
  destruct (Heq col name w1) as (w2 & cond & ->).
  destruct (Hfilter (PyProxy self) (mkArgs [cond] []) w2) as (w3 & d & F & D).
  destruct (isinstance_DataFrame_jdf _ D) as [jdf Hj].
  unfold bind at 1.
  destruct (__class__ self) eqn:K;
    try (rewrite (wrapper_rewraps func self _ (mkState w2 (trace st)) w3 d jdf);
         [ unfold bind, getattr__jdf; simpl; eexists _, _; split; reflexivity
         | congruence | exact F | exact D | exact Hj ]).
  rewrite (wrapper_base func self _ _ K). unfold lift; simpl. rewrite F.
  unfold bind, getattr__jdf. rewrite Hj. simpl.
  eexists _, _. split; reflexivity.
Qed.

(** A returning [ref], step by step: the column, the comparison, the
    call of pyspark's [filter], and the handle that is wrapped. *)
Lemma ref_returns_from_filter (self : proxy J) (name : pyval J)
      (st st' : state J W) (p : proxy J) :
  ReferencesDataFrame_ref self name st = (st', inr p) ->
  exists func w1 col w2 cond w3 d,
    DataFrame_getattr "filter" = Some func /\
    DataFrame___getattr__ (PyProxy self) "name" (world st) = (w1, inr col) /\
    Column___eq__ col name w1 = (w2, inr cond) /\
    func (PyProxy self) (mkArgs [cond] []) w2 = (w3, inr d) /\
    dataframe_jdf d = Some (_jdf p) /\
    __class__ p = ReferencesDataFrame /\
    world st' = w3.
Proof.
  intros H. unfold ReferencesDataFrame_ref in H.
    apply bind_returns in H as (st1 & col & H1 & H).
    apply bind_returns in H as (st2 & cond & H2 & H).
    apply bind_returns in H as (st3 & filtered & H3 & H).
    apply bind_returns in H as (st4 & jdf & H4 & H).
    apply lift_returns in H1 as (w1 & C1 & ->).
    apply lift_returns in H2 as (w2 & C2 & ->). cbn [world trace] in *.
    unfold getattr__jdf, no_attribute, ret, raise in H4.
    destruct (dataframe_jdf filtered) as [j|] eqn:Hj; inversion H4; subst.
    inversion H; subst. clear H H4.
    unfold SourcedDataFrame_filter, __generate_method in H3.
    destruct (DataFrame_getattr "filter") as [func|]; [|discriminate H3].
    destruct (func (PyProxy self) (mkArgs [cond] []) w2) as [w3 [e|d]] eqn:F.
    + rewrite (wrapper_raises func _ _ (mkState w2 (trace st)) _ _ F) in H3.
      discriminate H3.
    + exists func, w1, col, w2, cond, w3, d.
      repeat split; try assumption; try reflexivity.
      * destruct (isinstance d T_DataFrame) eqn:D.
        -- destruct (isinstance_DataFrame_jdf _ D) as [jd Hjd].
           unfold _wrapper, bind, lift in H3. cbn [world trace] in H3.
           rewrite F in H3. rewrite D in H3.
           destruct (class_ne_SourcedDataFrame (PyProxy self)
                     && isinstance (PyProxy self) (T_Sourced SourcedDataFrame)).
           ++ cbn [andb] in H3. unfold getattr__jdf in H3. rewrite Hjd in H3.
              cbn in H3. inversion H3; subst. cbn in Hj.
              inversion Hj; subst. exact Hjd.
           ++ cbn [andb] in H3. inversion H3; subst. exact Hj.
        -- rewrite (wrapper_passes func _ _ (mkState w2 (trace st)) _ _ F D) in H3.
           inversion H3; subst. exact Hj.
      * unfold _wrapper, bind, lift in H3. cbn [world trace] in H3.
        rewrite F in H3.
        destruct (class_ne_SourcedDataFrame (PyProxy self)
                  && isinstance (PyProxy self) (T_Sourced SourcedDataFrame)
                  && isinstance d T_DataFrame).
        -- unfold getattr__jdf, no_attribute, ret, raise in H3.
           destruct (dataframe_jdf d); cbn in H3; inversion H3; reflexivity.
        -- inversion H3; reflexivity.
Qed.

End RefFacts.

(** ** Generic relational operations *)

Section Generic.

Context {J W : Type} {E : External J W}.

(** C1.  Let [attr] be a generic relational attribute of
    [SourcedDataFrame] (filter, select, sort, join, union, limit, distinct,
    ... and the aliases), [func] the [DataFrame] method it wraps and [g]
    the method the class exposes.  Called on a proxy [self] with arguments
    [a], [g] hands [self] and [a] to [func] unchanged, and
    - when the class of [self] is a strict subclass of [SourcedDataFrame]
      and [func] answers with a dataframe, [g] answers with a proxy of
      exactly the class of [self], around the handle of that dataframe,
      with the session and the implicits of [self];
    - when [self] is a plain [SourcedDataFrame], [g] is [func]: same
      answer or exception, same effect. *)
Theorem C1_generic_operations_keep_the_caller_class
        (attr name : string) (func : pyval J -> pyargs J -> ext W (pyval J))
        (g : pymethod) (self : proxy J) (a : pyargs J) (st : state J W) :
  wrapped_name attr generic_methods = Some name ->
  DataFrame_getattr name = Some func ->
  SourcedDataFrame_generic attr = Some g ->
  (forall w' dataframe,
      __class__ self <> SourcedDataFrame ->
      func (PyProxy self) a (world st) = (w', inr dataframe) ->
      isinstance dataframe T_DataFrame = true ->
      exists jdf,
        dataframe_jdf dataframe = Some jdf /\
        g (PyProxy self) a st =
        (mkState w' (trace st),
         inr (PyProxy (mkProxy (__class__ self) jdf
                               (_session self) (_implicits self))))) /\
  (__class__ self = SourcedDataFrame ->
   g (PyProxy self) a st = lift (func (PyProxy self) a) st).
Proof.
  intros Hname Hfunc Hg.
  unfold SourcedDataFrame_generic in Hg. rewrite Hname in Hg.
  inversion Hg; subst g; clear Hg.
  unfold __generate_method. rewrite Hfunc. split.
  - intros w' dataframe K F D.
    destruct (isinstance_DataFrame_jdf _ D) as [jdf Hj].
    exists jdf. split; [exact Hj|].
    apply wrapper_rewraps with (dataframe := dataframe); assumption.
  - apply wrapper_base.
Qed.

End Generic.

(** ** Engine.blobs *)

Section Blobs.

Context {J W : Type} {E : External J W}.

(** C3.  When one of [repository_ids], [reference_names], [commit_hashes]
    is not a list (a single string, say), [Engine.blobs] raises an
    exception whose message names a parameter that is not a list, and
    the state is the one it started from: no request was recorded, so
    [getBlobs] was never asked, and the external world did not move. *)
Theorem C3_blobs_rejects_arguments_that_are_not_lists
        (self : engine J) (repository_ids reference_names commit_hashes : pyval J)
        (st : state J W) :
  isinstance repository_ids T_list && isinstance reference_names T_list
  && isinstance commit_hashes T_list = false ->
  exists param value,
    In (param, value) [ ("repository_ids", repository_ids);
                        ("reference_names", reference_names);
                        ("commit_hashes", commit_hashes) ] /\
    isinstance value T_list = false /\
    Engine_blobs self repository_ids reference_names commit_hashes st =
    (st, inl (mkExc Exception (param ++ " must be a list"))).
Proof.
  intros H. unfold Engine_blobs, bind.
  destruct (isinstance repository_ids T_list) eqn:H1;
    [destruct (isinstance reference_names T_list) eqn:H2;
     [destruct (isinstance commit_hashes T_list) eqn:H3;
      [discriminate|]|]|]; simpl.
  - exists "commit_hashes", commit_hashes. simpl. auto 6.
  - exists "reference_names", reference_names. simpl. auto 6.
  - exists "repository_ids", repository_ids. simpl. auto 6.
Qed.

End Blobs.

(** ** Navigation operations *)

Section NavigationFacts.

Context {J W : Type} {E : External J W}.

Lemma master_ref_is_head_ref :
  @RepositoriesDataFrame_master_ref J W E = RepositoriesDataFrame_head_ref.
Proof. reflexivity. Qed.

(** Every navigation a class defines is of one of three shapes, and its
    docstring declares the class its body instantiates. *)
Lemma navigation_method_cases (k : klass) (n : navigation J) f :
  navigation_method k n = Some f ->
  match shape_of k n with
  | single_request =>
      exists d m a,
        rtype k n = Some d /\ f = engine_request d m a /\
        existsb (String.eqb m) handle_methods = true
  | chained_requests =>
      rtype k n = Some ReferencesDataFrame /\ f = RepositoriesDataFrame_head_ref
  | delegates_to_filter =>
      exists name,
        rtype k n = Some ReferencesDataFrame /\
        f = (fun self => ReferencesDataFrame_ref self name)
  end.
Proof.
  destruct k, n; simpl; intros H; try discriminate H;
    inversion H; subst f; clear H;
    try (split; reflexivity);
    try (eexists; split; reflexivity);
    eexists _, _, _; repeat split; reflexivity.
Qed.

(** Whatever a navigation returns is a proxy of the declared class that
    carries the session and the implicits of the proxy it started from. *)
Lemma navigation_returns (k : klass) (n : navigation J) f d
      (self : proxy J) (st st' : state J W) p :
  navigation_method k n = Some f ->
  rtype k n = Some d ->
  f self st = (st', inr p) ->
  exists jdf, p = mkProxy d jdf (_session self) (_implicits self).
Proof.
  intros Hf Hd Hrun. apply navigation_method_cases in Hf.
  destruct (shape_of k n).
  - destruct Hf as (d' & m & a & Hd' & -> & _).
    rewrite Hd in Hd'. inversion Hd'; subst d'.
    apply engine_request_returns in Hrun
      as (w1 & edf & w2 & jdf & _ & _ & _ & ->). eauto.
  - destruct Hf as (Hd' & ->). rewrite Hd in Hd'. inversion Hd'; subst d.
    apply head_ref_returns in Hrun
      as (w1 & edf & w2 & refs & w3 & jdf & _ & _ & _ & _ & ->). eauto.
  - destruct Hf as (name & Hd' & ->). rewrite Hd in Hd'. inversion Hd'; subst d.
    apply ref_returns in Hrun as (_ & jdf & ->). eauto.
Qed.

Lemma navigation_total (k : klass) (n : navigation J) f d
      (self : proxy J) (st : state J W) :
  navigation_method k n = Some f ->
  rtype k n = Some d ->
  responsive E -> spark_responsive E ->
  exists st' p, f self st = (st', inr p) /\ __class__ p = d.
Proof.
  intros Hf Hd R S. apply navigation_method_cases in Hf.
  destruct (shape_of k n).
  - destruct Hf as (d' & m & a & Hd' & -> & _).
    rewrite Hd in Hd'. inversion Hd'; subst d'.
    apply engine_request_total; assumption.
  - destruct Hf as (Hd' & ->). rewrite Hd in Hd'. inversion Hd'; subst d.
    apply head_ref_total; assumption.
  - destruct Hf as (name & Hd' & ->). rewrite Hd in Hd'. inversion Hd'; subst d.
    apply ref_total; assumption.
Qed.

(** A class declares a return type for exactly the navigations it
    defines. *)
Lemma rtype_defined (k : klass) (n : navigation J) :
  (exists d, rtype k n = Some d) <->
  (exists f, navigation_method (E := E) k n = Some f).
Proof.
  destruct k, n; simpl; split; intros [x H];
    try discriminate H; eexists; reflexivity.
Qed.

(** C2.  Let class [k] define the navigation [n] as the method [f], with
    declared destination [d] (references on repositories gives the
    references class, commits on references the commits class,
    tree_entries on commits the tree-entries class, blobs the blobs class,
    classify_languages the blobs-with-language class, extract_uasts the
    syntax-tree class, ...).  On any proxy [self], in any state:
    whatever [f] returns is a proxy whose class is exactly [d]; and [f]
    does return when the bridge and pyspark answer their requests. *)
Theorem C2_navigation_returns_the_destination_class
        (k : klass) (n : navigation J) f (d : klass)
        (self : proxy J) (st : state J W) :
  navigation_method k n = Some f ->
  rtype k n = Some d ->
  (forall st' p, f self st = (st', inr p) -> __class__ p = d) /\
  (responsive E -> spark_responsive E ->
   exists st' p, f self st = (st', inr p) /\ __class__ p = d).
Proof.
  intros Hf Hd. split.
  - intros st' p Hrun.
    destruct (navigation_returns k n f d self st st' p Hf Hd Hrun) as [jdf ->].
    reflexivity.
  - intros R S. eapply navigation_total; eassumption.
Qed.

End NavigationFacts.

Section Requests.

Context {J W : Type} {E : External J W}.

Lemma view_is_not_a_handle_request (self : proxy J) :
  is_handle_request (EngineDataFrame_call self) = false.
Proof. reflexivity. Qed.


(** C5.  On a repositories proxy [master_ref] is [head_ref]: the same
    requests, the same answer, the same effect, namely [getHEAD] asked of
    the references that [getReferences] returned.  On a references proxy
    [master_ref] asks the engine view for [getMaster] instead. *)
Theorem C5_master_ref_of_repositories_is_head_ref
        (self : proxy J) (st : state J W) :
  RepositoriesDataFrame_master_ref self st = RepositoriesDataFrame_head_ref self st /\
  (forall st' p,
      RepositoriesDataFrame_head_ref self st = (st', inr p) ->
      exists w1 edf w2 refs w3,
        invoke (EngineDataFrame_call self) (world st) = (w1, inr edf) /\
        invoke (mkCall edf "getReferences" []) w1 = (w2, inr refs) /\
        invoke (mkCall refs "getHEAD" []) w2 = (w3, inr (_jdf p)) /\
        trace st' = (trace st ++ [EngineDataFrame_call self;
                                  mkCall edf "getReferences" [];
                                  mkCall refs "getHEAD" []])%list) /\
  (forall st' p,
      ReferencesDataFrame_master_ref self st = (st', inr p) ->
      exists w1 edf w2,
        invoke (EngineDataFrame_call self) (world st) = (w1, inr edf) /\
        invoke (mkCall edf "getMaster" []) w1 = (w2, inr (_jdf p)) /\
        trace st' = (trace st ++ [EngineDataFrame_call self;
                                  mkCall edf "getMaster" []])%list).
Proof.
  split; [reflexivity|]. split.
  - intros st' p Hrun.
    apply head_ref_returns in Hrun
      as (w1 & edf & w2 & refs & w3 & jdf & I1 & I2 & I3 & -> & ->).
    exists w1, edf, w2, refs, w3. auto.
  - intros st' p Hrun.
    apply engine_request_returns in Hrun
      as (w1 & edf & w2 & jdf & I1 & I2 & -> & ->).
    exists w1, edf, w2. auto.
Qed.

(** C8, as the code has it.  A proxy derived from [self] carries the
    session and the implicits of [self]: this holds for the proxy any
    navigation returns, and for the proxy a generic operation builds around
    a tabular answer when [self] is of a specialised class.  (Python objects
    are values here, so carrying the same reference is equality.)  And no
    generic or navigation operation writes to them: the state of a session
    lives in the external world, which such an operation moves
    - by the requests it records, executed in order, and by nothing else,
      when it is a navigation on the engine view;
    - by pyspark's column access, comparison and [filter], and by nothing
      else, when it is [ref];
    - by the pyspark method it wraps, and by nothing else, when it is a
      generic operation.
    None of them is [session.conf.set]. *)
Theorem C8_derived_proxies_share_session_and_implicits
        (self : proxy J) (st st' : state J W) :
  (forall k n f p,
      navigation_method k n = Some f ->
      f self st = (st', inr p) ->
      _session p = _session self /\ _implicits p = _implicits self /\
      match shape_of k n with
      | delegates_to_filter =>
          new_calls st st' = [] /\
          exists name func w1 col w2 cond d,
            n = ref name /\
            DataFrame_getattr "filter" = Some func /\
            DataFrame___getattr__ (PyProxy self) "name" (world st) = (w1, inr col) /\
            Column___eq__ col name w1 = (w2, inr cond) /\
            func (PyProxy self) (mkArgs [cond] []) w2 = (world st', inr d)
      | _ => world st' = replay (new_calls st st') (world st)
      end) /\
  (forall attr g a v,
      SourcedDataFrame_generic attr = Some g ->
      __class__ self <> SourcedDataFrame ->
      g (PyProxy self) a st = (st', inr v) ->
      isinstance v T_DataFrame = true ->
      (exists p, v = PyProxy p /\ __class__ p = __class__ self /\
                 _session p = _session self /\ _implicits p = _implicits self) /\
      new_calls st st' = [] /\
      exists name func d,
        wrapped_name attr generic_methods = Some name /\
        DataFrame_getattr name = Some func /\
        func (PyProxy self) a (world st) = (world st', inr d)).
Proof.
  split.
  - intros k n f p Hf Hrun.
    destruct (proj2 (rtype_defined k n) (ex_intro _ f Hf)) as [d Hd].
    destruct (navigation_returns k n f d self st st' p Hf Hd Hrun) as [jdf Hp].
    split; [subst p; reflexivity|]. split; [subst p; reflexivity|].
    pose proof (navigation_method_cases k n f Hf) as Hshape.
    destruct k, n; cbn [shape_of] in Hshape |- *;
      try discriminate Hf;
      try (destruct Hshape as (d' & m & a & _ & -> & _);
           apply engine_request_returns in Hrun
             as (w1 & edf & w2 & jdf' & I1 & I2 & -> & _);
           rewrite (new_calls_of_app st _ [EngineDataFrame_call self; mkCall edf m a])
             by reflexivity;
           cbn [replay world]; rewrite I1; cbn [fst]; rewrite I2; reflexivity);
      try (destruct Hshape as (_ & ->);
           apply head_ref_returns in Hrun
             as (w1 & edf & w2 & refs & w3 & jdf' & I1 & I2 & I3 & -> & _);
           rewrite (new_calls_of_app
                      st _ [EngineDataFrame_call self;
                            mkCall edf "getReferences" [];
                            mkCall refs "getHEAD" []])
             by reflexivity;
           cbn [replay world]; rewrite I1; cbn [fst]; rewrite I2; cbn [fst];
           rewrite I3; reflexivity).
    clear Hshape. cbn [navigation_method] in Hf. inversion Hf; subst f; clear Hf.
    pose proof (ref_returns _ _ _ _ _ Hrun) as [T _].
    apply ref_returns_from_filter in Hrun
      as (func & w1 & col & w2 & cond & w3 & d0 & F & C1 & C2 & F3 & _ & _ & Hw).
    split.
    + apply new_calls_of_app. rewrite T. symmetry. apply app_nil_r.
    + exists name, func, w1, col, w2, cond, d0. rewrite Hw. auto 6.
  - intros attr g a v Hg K Hrun D.
    unfold SourcedDataFrame_generic in Hg.
    destruct (wrapped_name attr generic_methods) as [name|] eqn:Hname;
      [|discriminate].
    inversion Hg; subst g; clear Hg.
    pose proof (generated_trace _ _ _ _ _ _ Hrun) as T.
    unfold __generate_method in Hrun.
    destruct (DataFrame_getattr name) as [func|] eqn:Hfunc; [|discriminate].
    apply wrapper_returns in Hrun as (w' & d & F & -> & [[D' ->]|[jdf [_ ->]]]);
      [congruence| |assumption].
    split; [eexists; repeat split|]. split.
    + apply new_calls_of_app. cbn [trace]. symmetry. apply app_nil_r.
    + exists name, func, d. auto.
Qed.

(** C9.  On a blobs proxy, [classify_languages()] followed by
    [extract_uasts()] and [extract_uasts()] alone both return a proxy of
    the syntax-tree class; both do return when the bridge answers. *)
Theorem C9_extract_uasts_with_or_without_classification
        (self : proxy J) (st : state J W) :
  __class__ self = BlobsDataFrame ->
  (forall st1 p1,
      (p <- send self classify_languages ;; send p extract_uasts) st = (st1, inr p1) ->
      __class__ p1 = UASTsDataFrame) /\
  (forall st2 p2,
      send self extract_uasts st = (st2, inr p2) ->
      __class__ p2 = UASTsDataFrame) /\
  (responsive E ->
   exists st1 p1 st2 p2,
     (p <- send self classify_languages ;; send p extract_uasts) st = (st1, inr p1) /\
     send self extract_uasts st = (st2, inr p2) /\
     __class__ p1 = __class__ p2 /\ __class__ p2 = UASTsDataFrame).
Proof.
  intros K. unfold send at 1 3 4 6. rewrite K. simpl navigation_method.
  cbv iota beta. split; [|split].
  - intros st1 p1 Hrun.
    apply bind_returns in Hrun as (st0 & p & H1 & H2).
    apply engine_request_returns in H1 as (? & ? & ? & ? & _ & _ & _ & ->).
    unfold send in H2. simpl in H2.
    apply engine_request_returns in H2 as (? & ? & ? & ? & _ & _ & _ & ->).
    reflexivity.
  - intros st2 p2 Hrun.
    apply engine_request_returns in Hrun as (? & ? & ? & ? & _ & _ & _ & ->).
    reflexivity.
  - intros R.
    destruct (engine_request_total BlobsWithLanguageDataFrame "classifyLanguages"
                                   [] self st R) as (st0 & p & H1 & Kp).
    destruct (engine_request_total UASTsDataFrame "extractUASTs" [] p st0 R)
      as (st1 & p1 & H2 & K1).
    destruct (engine_request_total UASTsDataFrame "extractUASTs" [] self st R)
      as (st2 & p2 & H3 & K2).
    exists st1, p1, st2, p2. repeat split; try congruence.
    + unfold bind. unfold BlobsDataFrame_classify_languages. rewrite H1.
      unfold send. rewrite Kp. exact H2.
    + exact H3.
Qed.

End Requests.

(** ** [ref] on HEAD against the [head_ref] shortcut *)

(** C6.  Over the engine of tables, for every table of references, every
    session and implicits and whatever the other requests compute: on the
    references proxy around the table, [ref] with the HEAD name followed by
    [commits] and [head_ref] followed by [commits] return the same result,
    the commits proxy around what [getCommits] derives from the rows whose
    name is the HEAD name, with the session and the implicits of the
    caller. *)
Theorem C6_commits_after_ref_HEAD_is_commits_after_head_ref
        (derive : string -> list Tabular.row -> list Tabular.row)
        (rows : list Tabular.row)
        (sess : SparkSession Tabular.jobject) (implicits : Tabular.jobject)
        (st : state Tabular.jobject unit) :
  snd ((p <- send (E := Tabular.external derive)
                  (mkProxy ReferencesDataFrame (Tabular.Table rows) sess implicits)
                  (ref HEAD_name) ;;
        send (E := Tabular.external derive) p commits) st)
  = snd ((p <- send (E := Tabular.external derive)
                    (mkProxy ReferencesDataFrame (Tabular.Table rows) sess implicits)
                    head_ref ;;
          send (E := Tabular.external derive) p commits) st) /\
  snd ((p <- send (E := Tabular.external derive)
                  (mkProxy ReferencesDataFrame (Tabular.Table rows) sess implicits)
                  head_ref ;;
        send (E := Tabular.external derive) p commits) st)
  = inr (mkProxy CommitsDataFrame
                 (Tabular.Table
                    (derive "getCommits"
                            (filter (Tabular.has "name" "refs/heads/HEAD") rows)))
                 sess implicits).
Proof.
  destruct st as [[] l]. split.
  - transitivity
      (@inr pyexc _
            (mkProxy CommitsDataFrame
                     (Tabular.Table
                        (derive "getCommits"
                                (filter (Tabular.has "name" "refs/heads/HEAD") rows)))
                     sess implicits)).
    + vm_compute. reflexivity.
    + symmetry. vm_compute. reflexivity.
  - vm_compute. reflexivity.
Qed.


(** ** Engine: construction and data sources *)

Section EngineFacts.

Context {J W : Type} {E : External J W}.

(** The guarded request of [Engine.__init__], in full. *)
Lemma Engine_apply_guarded_run (jvm jsparkSession : J)
      (repos_path repos_format : pyval J) (st : state J W) :
  Engine_apply_guarded jvm jsparkSession repos_path repos_format st =
  let c := Engine_apply_call jvm jsparkSession repos_path repos_format in
  (mkState (fst (invoke c (world st))) (trace st ++ [c]),
   match snd (invoke c (world st)) with
   | inr eng => inr eng
   | inl e => inl (if is_TypeError e then handler_outcome e else e)
   end).
Proof.
  unfold Engine_apply_guarded, try_except. rewrite call_run. cbv zeta.
  destruct (invoke _ (world st)) as [w' [e|eng]]; cbn [fst snd].
  - destruct (is_TypeError e); [|reflexivity].
    unfold Engine_apply_handler, handler_outcome.
    destruct (exc_args e) as [|first rest]; [reflexivity|].
    destruct (py_in "JavaPackage" first) as [failed|[|]]; reflexivity.
  - reflexivity.
Qed.

(** [Engine.__init__] when the request for the engine fails with [e]. *)
Lemma Engine_init_apply_fails
      (sess : SparkSession J)
      (repos_path repos_format skip_cleanup skip_read_errors : pyval J)
      (st : state J W) (w1 w2 w3 w4 w5 : W) (e : pyexc) :
  conf_set sess "spark.tech.sourced.engine.repositories.path" repos_path
           (world st) = (w1, inr tt) ->
  conf_set sess "spark.tech.sourced.engine.repositories.format" repos_format
           w1 = (w2, inr tt) ->
  java_import (sparkContext_gateway_jvm sess) "tech.sourced.engine.Engine" w2
  = (w3, inr tt) ->
  java_import (sparkContext_gateway_jvm sess) "tech.sourced.engine.package$" w3
  = (w4, inr tt) ->
  invoke (Engine_apply_call (sparkContext_gateway_jvm sess)
                            (_jsparkSession sess) repos_path repos_format) w4
  = (w5, inl e) ->
  Engine___init__ sess repos_path repos_format skip_cleanup skip_read_errors st =
  (mkState w5
           (trace st ++
            [Engine_apply_call (sparkContext_gateway_jvm sess)
                               (_jsparkSession sess) repos_path repos_format]),
   inl (if is_TypeError e then handler_outcome e else e)).
Proof.
  intros C1 C2 I1 I2 A.
  unfold Engine___init__, bind, lift.
  rewrite C1. cbn [world trace]. rewrite C2. cbn [world trace].
  rewrite I1. cbn [world trace]. rewrite I2.
  rewrite Engine_apply_guarded_run. cbv zeta. cbn [world trace].
  rewrite A. reflexivity.
Qed.

(** C7, where the code departs from it.  Let the settings and imports that
    open [Engine.__init__] go through, and let the bridge fail the request
    for the engine with a [TypeError] that was raised without arguments.
    The [except TypeError] clause then fails on [e.args[0]]:
    initialization raises an [IndexError], not the exception of the bridge,
    which is therefore not propagated unchanged. *)
Theorem C7_a_type_error_without_arguments_is_masked
        (sess : SparkSession J)
        (repos_path repos_format skip_cleanup skip_read_errors : pyval J)
        (st : state J W) (w1 w2 w3 w4 w5 : W) (e : pyexc) :
  conf_set sess "spark.tech.sourced.engine.repositories.path" repos_path
           (world st) = (w1, inr tt) ->
  conf_set sess "spark.tech.sourced.engine.repositories.format" repos_format
           w1 = (w2, inr tt) ->
  java_import (sparkContext_gateway_jvm sess) "tech.sourced.engine.Engine" w2
  = (w3, inr tt) ->
  java_import (sparkContext_gateway_jvm sess) "tech.sourced.engine.package$" w3
  = (w4, inr tt) ->
  invoke (Engine_apply_call (sparkContext_gateway_jvm sess)
                            (_jsparkSession sess) repos_path repos_format) w4
  = (w5, inl e) ->
  is_TypeError e = true ->
  exc_args e = [] ->
  Engine___init__ sess repos_path repos_format skip_cleanup skip_read_errors st =
  (mkState w5
           (trace st ++
            [Engine_apply_call (sparkContext_gateway_jvm sess)
                               (_jsparkSession sess) repos_path repos_format]),
   inl (mkExc (OtherError "IndexError") "tuple index out of range")) /\
  mkExc (OtherError "IndexError") "tuple index out of range" <> e.
Proof.
  intros C1 C2 I1 I2 A T Hargs. split.
  - rewrite (Engine_init_apply_fails _ _ _ _ _ _ _ _ _ _ _ _ C1 C2 I1 I2 A).
    rewrite T. unfold handler_outcome. rewrite Hargs. reflexivity.
  - intros <-. discriminate Hargs.
Qed.

(** C10.  [from_metadata] asks the engine for [fromMetadata] and, when
    that is answered, returns the [Engine] it was called on, whatever the
    answer was.  [from_repositories] asks for [fromRepositories] and
    returns the answer of the bridge, a JavaObject, which is not an
    [Engine] instance. *)
Theorem C10_from_metadata_returns_self_from_repositories_the_bridge_value
        (self : engine J) (db_path db_name : pyval J) (st : state J W) :
  (let c := mkCall (__engine self) "fromMetadata" [db_path; db_name] in
   Engine_from_metadata self db_path db_name st =
   (mkState (fst (invoke c (world st))) (trace st ++ [c]),
    match snd (invoke c (world st)) with
    | inr _ => inr (PyEngine self)
    | inl e => inl e
    end)) /\
  (let c := mkCall (__engine self) "fromRepositories" [] in
   Engine_from_repositories self st =
   (mkState (fst (invoke c (world st))) (trace st ++ [c]),
    match snd (invoke c (world st)) with
    | inr j => inr (PyJava j)
    | inl e => inl e
    end)) /\
  (forall (j : J) (any : engine J), PyJava j <> PyEngine any).
Proof.
  split; [|split].
  - unfold Engine_from_metadata, bind. rewrite call_run.
    destruct (invoke _ (world st)) as [w' [e|j]]; reflexivity.
  - unfold Engine_from_repositories, bind. rewrite call_run.
    destruct (invoke _ (world st)) as [w' [e|j]]; reflexivity.
  - intros j any H. discriminate H.
Qed.

End EngineFacts.

(** ** The properties on the recording doubles *)

(** Unless another double is named, a run below is a run against
    [Double.recording]. *)
#[local] Existing Instance Double.recording.

Lemma recording_responsive : responsive Double.recording.
Proof.
  intros c w. unfold invoke; simpl. unfold Double.engine_invoke. eauto.
Qed.

Lemma recording_spark_responsive : spark_responsive Double.recording.
Proof.
  split; [|split].
  - intros self n w. simpl. unfold Double.spark_column. eauto.
  - intros c v w. simpl. unfold Double.spark_eq. eauto.
  - exists (Double.spark_call "filter"). split; [reflexivity|].
    intros self a w. unfold Double.spark_call. simpl. eauto.
Qed.

(** [where] on a references proxy gives a references proxy; on a plain
    [SourcedDataFrame] it gives what pyspark's [filter] gives. *)
Lemma C1_witness :
  __generate_method (E := Double.recording) "filter"
                    (PyProxy (Double.a_proxy ReferencesDataFrame))
                    (mkArgs [PyStr "is_remote"] []) Double.initial
  = (Double.initial,
     inr (PyProxy (mkProxy ReferencesDataFrame ["df"; "filter(is_remote)"]
                           Double.spark ["implicits"]))) /\
  __generate_method (E := Double.recording) "filter"
                    (PyProxy (Double.a_proxy SourcedDataFrame))
                    (mkArgs [PyStr "is_remote"] []) Double.initial
  = (Double.initial,
     inr (PyDataFrame ["df"; "filter(is_remote)"] Double.spark)).
Proof.
  split.
  - destruct (C1_generic_operations_keep_the_caller_class
                (E := Double.recording)
                "where" "filter" (Double.spark_call "filter")
                (__generate_method (E := Double.recording) "filter")
                (Double.a_proxy ReferencesDataFrame)
                (mkArgs [PyStr "is_remote"] []) Double.initial
                eq_refl eq_refl eq_refl) as [H _].
    destruct (H 0 (PyDataFrame ["df"; "filter(is_remote)"] Double.spark))
      as (jdf & Hj & Hg); [discriminate|reflexivity|reflexivity|].
    inversion Hj; subst jdf. exact Hg.
  - destruct (C1_generic_operations_keep_the_caller_class
                (E := Double.recording)
                "where" "filter" (Double.spark_call "filter")
                (__generate_method (E := Double.recording) "filter")
                (Double.a_proxy SourcedDataFrame)
                (mkArgs [PyStr "is_remote"] []) Double.initial
                eq_refl eq_refl eq_refl) as [_ H].
    exact (H eq_refl).
Defined.

Lemma C2_witness :
  exists st' p,
    ReferencesDataFrame_commits (E := Double.recording)
                                (Double.a_proxy ReferencesDataFrame)
                                Double.initial = (st', inr p) /\
    __class__ p = CommitsDataFrame.
Proof.
  apply (proj2 (C2_navigation_returns_the_destination_class
                  (E := Double.recording)
                  ReferencesDataFrame commits
                  (ReferencesDataFrame_commits (E := Double.recording))
                  CommitsDataFrame (Double.a_proxy ReferencesDataFrame)
                  Double.initial eq_refl eq_refl)).
  - exact recording_responsive.
  - exact recording_spark_responsive.
Defined.

(** A single string where the list of repository ids is expected. *)
Lemma C3_witness :
  exists param value,
    In (param, value) [ ("repository_ids",
                         @PyStr Double.handle "github.com/src-d/engine");
                        ("reference_names", PyList []);
                        ("commit_hashes", PyList []) ] /\
    isinstance value T_list = false /\
    Engine_blobs (E := Double.recording) Double.an_engine
                 (PyStr "github.com/src-d/engine") (PyList []) (PyList [])
                 Double.initial
    = (Double.initial, inl (mkExc Exception (param ++ " must be a list"))).
Proof.
  exact (C3_blobs_rejects_arguments_that_are_not_lists
           (E := Double.recording) Double.an_engine
           (PyStr "github.com/src-d/engine") (PyList []) (PyList [])
           Double.initial eq_refl).
Defined.



Lemma C5_witness :
  RepositoriesDataFrame_master_ref (E := Double.recording)
                                   (Double.a_proxy RepositoriesDataFrame)
                                   Double.initial
  = RepositoriesDataFrame_head_ref (Double.a_proxy RepositoriesDataFrame)
                                   Double.initial /\
  (exists w1 edf w2 refs w3,
      Double.engine_invoke
        (EngineDataFrame_call (Double.a_proxy RepositoriesDataFrame)) 0
      = (w1, inr edf) /\
      Double.engine_invoke (mkCall edf "getReferences" []) w1 = (w2, inr refs) /\
      Double.engine_invoke (mkCall refs "getHEAD" []) w2
      = (w3, inr ["df"; "getReferences"; "getHEAD"]) /\
      trace (fst (RepositoriesDataFrame_head_ref
                    (E := Double.recording)
                    (Double.a_proxy RepositoriesDataFrame) Double.initial))
      = [EngineDataFrame_call (Double.a_proxy RepositoriesDataFrame);
         mkCall edf "getReferences" []; mkCall refs "getHEAD" []]) /\
  (exists w1 edf w2,
      Double.engine_invoke
        (EngineDataFrame_call (Double.a_proxy ReferencesDataFrame)) 0
      = (w1, inr edf) /\
      Double.engine_invoke (mkCall edf "getMaster" []) w1
      = (w2, inr ["df"; "getMaster"]) /\
      trace (fst (ReferencesDataFrame_master_ref
                    (E := Double.recording)
                    (Double.a_proxy ReferencesDataFrame) Double.initial))
      = [EngineDataFrame_call (Double.a_proxy ReferencesDataFrame);
         mkCall edf "getMaster" []]).
Proof.
  split; [|split].
  - exact (proj1 (C5_master_ref_of_repositories_is_head_ref
                    (E := Double.recording)
                    (Double.a_proxy RepositoriesDataFrame) Double.initial)).
  - exact (proj1 (proj2 (C5_master_ref_of_repositories_is_head_ref
                           (E := Double.recording)
                           (Double.a_proxy RepositoriesDataFrame) Double.initial))
                 _ (mkProxy ReferencesDataFrame ["df"; "getReferences"; "getHEAD"]
                            Double.spark ["implicits"])
                 eq_refl).
  - exact (proj2 (proj2 (C5_master_ref_of_repositories_is_head_ref
                           (E := Double.recording)
                           (Double.a_proxy ReferencesDataFrame) Double.initial))
                 _ (mkProxy ReferencesDataFrame ["df"; "getMaster"]
                            Double.spark ["implicits"])
                 eq_refl).
Defined.

(** The bridge answers the request for the engine with [TypeError()]. *)
Lemma C7_witness :
  Engine___init__ (E := Bare.raising_bare) Double.spark
                  (PyStr "/repositories") (PyStr "siva") (PyBool false)
                  (PyBool false) Double.initial
  = (mkState 0 [Engine_apply_call ["jvm"] ["jsparkSession"]
                                  (PyStr "/repositories") (PyStr "siva")],
     inl (mkExc (OtherError "IndexError") "tuple index out of range")) /\
  mkExc (OtherError "IndexError") "tuple index out of range"
  <> Bare.bare_type_error.
Proof.
  exact (C7_a_type_error_without_arguments_is_masked
           (E := Bare.raising_bare) Double.spark
           (PyStr "/repositories") (PyStr "siva") (PyBool false) (PyBool false)
           Double.initial 0 0 0 0 0 Bare.bare_type_error
           eq_refl eq_refl eq_refl eq_refl eq_refl eq_refl eq_refl).
Defined.

(** C8 as the specification words it: no operation of the layer writes to
    the session.  [Engine.__init__] sets two keys of its configuration. *)
Lemma C8_counterexample :
  world (fst (Engine___init__ (E := Configured.external) Double.spark
                              (PyStr "/repositories") (PyStr "siva")
                              (PyBool false) (PyBool false)
                              (mkState [] [])))
  = [ ("spark.tech.sourced.engine.repositories.path", "/repositories");
      ("spark.tech.sourced.engine.repositories.format", "siva") ] /\
  world (fst (Engine___init__ (E := Configured.external) Double.spark
                              (PyStr "/repositories") (PyStr "siva")
                              (PyBool false) (PyBool false)
                              (mkState [] [])))
  <> world (mkState (J := Double.handle) (W := Configured.settings) [] []) /\
  exists eng,
    snd (Engine___init__ (E := Configured.external) Double.spark
                         (PyStr "/repositories") (PyStr "siva")
                         (PyBool false) (PyBool false) (mkState [] []))
    = inr eng /\ session eng = Double.spark.
Proof.
  split; [reflexivity|]. split.
  - vm_compute. discriminate.
  - eexists. split; reflexivity.
Qed.

Lemma C8_witness :
  (_session (mkProxy CommitsDataFrame ["df"; "getCommits"]
                     Double.spark ["implicits"])
   = _session (Double.a_proxy ReferencesDataFrame) /\
   _implicits (mkProxy CommitsDataFrame ["df"; "getCommits"]
                       Double.spark ["implicits"])
   = _implicits (Double.a_proxy ReferencesDataFrame) /\
   2 = replay (new_calls Double.initial
                         (mkState 2 [EngineDataFrame_call
                                       (Double.a_proxy ReferencesDataFrame);
                                     mkCall ["df"] "getCommits" []]))
              0) /\
  ((exists p,
       PyProxy (mkProxy CommitsDataFrame ["df"; "limit(10)"]
                        Double.spark ["implicits"]) = PyProxy p /\
       __class__ p = __class__ (Double.a_proxy CommitsDataFrame) /\
       _session p = _session (Double.a_proxy CommitsDataFrame) /\
       _implicits p = _implicits (Double.a_proxy CommitsDataFrame)) /\
   new_calls Double.initial Double.initial = [] /\
   exists name func d,
     wrapped_name "limit" generic_methods = Some name /\
     Double.spark_method name = Some func /\
     func (PyProxy (Double.a_proxy CommitsDataFrame)) (mkArgs [PyStr "10"] []) 0
     = (0, inr d)).
Proof.
  split.
  - exact (proj1 (C8_derived_proxies_share_session_and_implicits
                    (E := Double.recording)
                    (Double.a_proxy ReferencesDataFrame) Double.initial
                    (mkState 2 [EngineDataFrame_call
                                  (Double.a_proxy ReferencesDataFrame);
                                mkCall ["df"] "getCommits" []]))
                 ReferencesDataFrame commits
                 (ReferencesDataFrame_commits (E := Double.recording))
                 (mkProxy CommitsDataFrame ["df"; "getCommits"]
                          Double.spark ["implicits"])
                 eq_refl eq_refl).
  - refine (proj2 (C8_derived_proxies_share_session_and_implicits
                     (E := Double.recording)
                     (Double.a_proxy CommitsDataFrame) Double.initial
                     Double.initial)
                  "limit" (__generate_method (E := Double.recording) "limit")
                  (mkArgs [PyStr "10"] [])
                  (PyProxy (mkProxy CommitsDataFrame ["df"; "limit(10)"]
                                    Double.spark ["implicits"]))
                  eq_refl _ eq_refl eq_refl).
    discriminate.
Defined.

Lemma C9_witness :
  exists st1 p1 st2 p2,
    (p <- send (E := Double.recording) (Double.a_proxy BlobsDataFrame)
               classify_languages ;;
     send p extract_uasts) Double.initial = (st1, inr p1) /\
    send (E := Double.recording) (Double.a_proxy BlobsDataFrame) extract_uasts
         Double.initial = (st2, inr p2) /\
    __class__ p1 = __class__ p2 /\ __class__ p2 = UASTsDataFrame.
Proof.
  apply (proj2 (proj2 (C9_extract_uasts_with_or_without_classification
                         (E := Double.recording)
                         (Double.a_proxy BlobsDataFrame) Double.initial eq_refl))).
  exact recording_responsive.
Defined.

(** * Further properties of the module *)

(** ** Engine.__init__ *)

Section EngineInit.

Context {J W : Type} {E : External J W}.

(** X1.  When [Engine.__init__] returns, the requests it has issued are, in
    this order: the request for the engine; [skipCleanup(True)] on the
    engine just obtained if and only if [skip_cleanup] is truthy;
    [skipReadErrors(True)] on it if and only if [skip_read_errors] is
    truthy; the lookup of the implicits.  The flags reach the engine as
    [True] whatever truthy value was given, and the new object keeps the
    session it was given. *)
Theorem X1_init_forwards_the_truthy_flags
        (sess : SparkSession J)
        (repos_path repos_format skip_cleanup skip_read_errors : pyval J)
        (st st' : state J W) (eng : engine J) :
  Engine___init__ sess repos_path repos_format skip_cleanup skip_read_errors st
  = (st', inr eng) ->
  session eng = sess /\
  __jsparkSession eng = _jsparkSession sess /\
  __jvm eng = sparkContext_gateway_jvm sess /\
  new_calls st st' =
  ([Engine_apply_call (sparkContext_gateway_jvm sess) (_jsparkSession sess)
                      repos_path repos_format]
   ++ (if truthy skip_cleanup
       then [mkCall (__engine eng) "skipCleanup" [PyBool true]] else [])
   ++ (if truthy skip_read_errors
       then [mkCall (__engine eng) "skipReadErrors" [PyBool true]] else [])
   ++ [mkCall (sparkContext_gateway_jvm sess)
              "tech.sourced.engine.package$.MODULE$" []])%list.
Proof.
  intros H. unfold Engine___init__, bind, lift in H.
  destruct (conf_set sess _ repos_path (world st)) as [w1 [e|u]];
    [discriminate H|]. cbn [world trace] in H.
  destruct (conf_set sess _ repos_format w1) as [w2 [e|u2]];
    [discriminate H|]. cbn [world trace] in H.
  destruct (java_import _ "tech.sourced.engine.Engine" w2) as [w3 [e|u3]];
    [discriminate H|]. cbn [world trace] in H.
  destruct (java_import _ "tech.sourced.engine.package$" w3) as [w4 [e|u4]];
    [discriminate H|].
  rewrite Engine_apply_guarded_run in H. cbv zeta in H. cbn [world trace] in H.
  destruct (invoke _ w4) as [w5 [e|j]]; cbn [fst snd] in H; [discriminate H|].
  destruct (truthy skip_cleanup), (truthy skip_read_errors); unfold ret in H;
    repeat (rewrite call_run in H; cbn [world trace] in H;
            match type of H with
            | context [invoke ?c ?w] =>
                destruct (invoke c w) as [? [?|?]]; cbn [fst snd] in H;
                [discriminate H|]
            end);
    inversion H; subst; cbn [session __jsparkSession __jvm __engine];
    repeat split; apply new_calls_of_app; cbn [trace];
    rewrite <- ?app_assoc; reflexivity.
Qed.

(** X2.  The request for the engine is the first request of
    [Engine.__init__]: a run that ends without it has issued no request at
    all, and has raised an exception that [session.conf.set] or
    [java_import] raised. *)
Theorem X2_init_asks_for_the_engine_first
        (sess : SparkSession J)
        (repos_path repos_format skip_cleanup skip_read_errors : pyval J)
        (st st' : state J W) (r : pyexc + engine J) :
  Engine___init__ sess repos_path repos_format skip_cleanup skip_read_errors st
  = (st', r) ->
  (exists rest,
      new_calls st st' =
      Engine_apply_call (sparkContext_gateway_jvm sess) (_jsparkSession sess)
                        repos_path repos_format :: rest) \/
  (new_calls st st' = [] /\
   exists e, r = inl e /\
             ((exists k v w w', conf_set sess k v w = (w', inl e)) \/
              (exists n w w',
                  java_import (sparkContext_gateway_jvm sess) n w = (w', inl e)))).
Proof.
  intros H. unfold Engine___init__, bind, lift in H.
  destruct (conf_set sess _ repos_path (world st)) as [w1 [e|u]] eqn:C1;
    [inversion H; subst; right; split;
     [apply new_calls_of_app; cbn [trace]; symmetry; apply app_nil_r
     |eauto 10]|].
  cbn [world trace] in H.
  destruct (conf_set sess _ repos_format w1) as [w2 [e|u2]] eqn:C2;
    [inversion H; subst; right; split;
     [apply new_calls_of_app; cbn [trace]; symmetry; apply app_nil_r
     |eauto 10]|].
  cbn [world trace] in H.
  destruct (java_import _ "tech.sourced.engine.Engine" w2) as [w3 [e|u3]] eqn:I1;
    [inversion H; subst; right; split;
     [apply new_calls_of_app; cbn [trace]; symmetry; apply app_nil_r
     |eauto 10]|].
  cbn [world trace] in H.
  destruct (java_import _ "tech.sourced.engine.package$" w3) as [w4 [e|u4]] eqn:I2;
    [inversion H; subst; right; split;
     [apply new_calls_of_app; cbn [trace]; symmetry; apply app_nil_r
     |eauto 10]|].
  left.
  rewrite Engine_apply_guarded_run in H. cbv zeta in H. cbn [world trace] in H.
  destruct (invoke _ w4) as [w5 [e|j]]; cbn [fst snd] in H.
  - inversion H; subst. eexists. apply new_calls_of_app. reflexivity.
  - destruct (truthy skip_cleanup), (truthy skip_read_errors); unfold ret in H;
      repeat (rewrite call_run in H; cbn [world trace] in H;
              match type of H with
              | context [invoke ?c ?w] =>
                  destruct (invoke c w) as [? [?|?]]; cbn [fst snd] in H
              end);
      inversion H; subst; eexists; apply new_calls_of_app; cbn [trace];
      rewrite <- ?app_assoc; reflexivity.
Qed.

(** X3.  The [except TypeError] clause guards the request for the engine
    only.  Once the engine is obtained, an exception raised by
    [skipCleanup] leaves [Engine.__init__] as it was raised, a [TypeError]
    that mentions [JavaPackage] included, and the implicits are not looked
    up. *)
Theorem X3_init_does_not_guard_the_later_requests
        (sess : SparkSession J)
        (repos_path repos_format skip_cleanup skip_read_errors : pyval J)
        (st : state J W) (w1 w2 w3 w4 w5 w6 : W) (eng : J) (e : pyexc) :
  conf_set sess "spark.tech.sourced.engine.repositories.path" repos_path
           (world st) = (w1, inr tt) ->
  conf_set sess "spark.tech.sourced.engine.repositories.format" repos_format
           w1 = (w2, inr tt) ->
  java_import (sparkContext_gateway_jvm sess) "tech.sourced.engine.Engine" w2
  = (w3, inr tt) ->
  java_import (sparkContext_gateway_jvm sess) "tech.sourced.engine.package$" w3
  = (w4, inr tt) ->
  invoke (Engine_apply_call (sparkContext_gateway_jvm sess)
                            (_jsparkSession sess) repos_path repos_format) w4
  = (w5, inr eng) ->
  truthy skip_cleanup = true ->
  invoke (mkCall eng "skipCleanup" [PyBool true]) w5 = (w6, inl e) ->
  Engine___init__ sess repos_path repos_format skip_cleanup skip_read_errors st =
  (mkState w6
           (trace st ++
            [Engine_apply_call (sparkContext_gateway_jvm sess)
                               (_jsparkSession sess) repos_path repos_format;
             mkCall eng "skipCleanup" [PyBool true]]),
   inl e).
Proof.
  intros C1 C2 I1 I2 A T S.
  unfold Engine___init__, bind, lift.
  rewrite C1. cbn [world trace]. rewrite C2. cbn [world trace].
  rewrite I1. cbn [world trace]. rewrite I2.
  rewrite Engine_apply_guarded_run. cbv zeta. cbn [world trace].
  rewrite A. cbn [fst snd]. rewrite T.
  rewrite call_run. cbn [world trace]. rewrite S. cbn [fst snd].
  rewrite <- app_assoc. reflexivity.
Qed.

End EngineInit.

(** ** The other methods of Engine *)

Section EngineMethods.

Context {J W : Type} {E : External J W}.

(** X4.  [Engine.blobs] checks its parameters in the order
    [repository_ids], [reference_names], [commit_hashes] and names the
    first one that is not a list, whatever the later ones are. *)
Theorem X4_blobs_names_the_first_parameter_that_is_not_a_list
        (self : engine J) (repository_ids reference_names commit_hashes : pyval J)
        (st : state J W) :
  (isinstance repository_ids T_list = false ->
   Engine_blobs self repository_ids reference_names commit_hashes st
   = (st, inl (mkExc Exception "repository_ids must be a list"))) /\
  (isinstance repository_ids T_list = true ->
   isinstance reference_names T_list = false ->
   Engine_blobs self repository_ids reference_names commit_hashes st
   = (st, inl (mkExc Exception "reference_names must be a list"))) /\
  (isinstance repository_ids T_list = true ->
   isinstance reference_names T_list = true ->
   isinstance commit_hashes T_list = false ->
   Engine_blobs self repository_ids reference_names commit_hashes st
   = (st, inl (mkExc Exception "commit_hashes must be a list"))).
Proof.
  unfold Engine_blobs, bind. repeat split.
  - intros ->. reflexivity.
  - intros -> ->. reflexivity.
  - intros -> -> ->. reflexivity.
Qed.

(** X5.  [Engine.blobs] issues a request exactly when its three arguments
    are lists.  Then it is the single request [getBlobs] on the engine, with
    the three lists as given and in the order given; an answer comes back
    as a [BlobsDataFrame] around it with the engine's session and implicits,
    an exception as it was raised. *)
Theorem X5_blobs_asks_once_when_given_lists
        (self : engine J) (repository_ids reference_names commit_hashes : pyval J)
        (st : state J W) :
  (isinstance repository_ids T_list && isinstance reference_names T_list
   && isinstance commit_hashes T_list = true ->
   let c := mkCall (__engine self) "getBlobs"
                   [repository_ids; reference_names; commit_hashes] in
   Engine_blobs self repository_ids reference_names commit_hashes st =
   (mkState (fst (invoke c (world st))) (trace st ++ [c]),
    match snd (invoke c (world st)) with
    | inr jdf => inr (mkProxy BlobsDataFrame jdf (session self) (__implicits self))
    | inl e => inl e
    end)) /\
  (new_calls st (fst (Engine_blobs self repository_ids reference_names
                                   commit_hashes st)) = [] <->
   isinstance repository_ids T_list && isinstance reference_names T_list
   && isinstance commit_hashes T_list = false).
Proof.
  assert (Hrun :
    isinstance repository_ids T_list && isinstance reference_names T_list
    && isinstance commit_hashes T_list = true ->
    Engine_blobs self repository_ids reference_names commit_hashes st =
    (mkState (fst (invoke (mkCall (__engine self) "getBlobs"
                                  [repository_ids; reference_names; commit_hashes])
                          (world st)))
             (trace st ++ [mkCall (__engine self) "getBlobs"
                                  [repository_ids; reference_names; commit_hashes]]),
     match snd (invoke (mkCall (__engine self) "getBlobs"
                               [repository_ids; reference_names; commit_hashes])
                       (world st)) with
     | inr jdf => inr (mkProxy BlobsDataFrame jdf (session self) (__implicits self))
     | inl e => inl e
     end)).
  { intros H. apply andb_prop in H as [H H3]. apply andb_prop in H as [H1 H2].
    unfold Engine_blobs, bind. rewrite H1, H2, H3. cbn [negb].
    unfold ret at 1 2 3. rewrite call_run.
    destruct (invoke _ (world st)) as [w' [e|jdf]]; reflexivity. }
  split; [exact Hrun|].
  destruct (isinstance repository_ids T_list && isinstance reference_names T_list
            && isinstance commit_hashes T_list) eqn:L.
  - rewrite (Hrun eq_refl). cbn [fst]. split; [|discriminate].
    intros H. rewrite (new_calls_of_app st _ [_]) in H by reflexivity.
    discriminate H.
  - split; [reflexivity|]. intros _.
    assert (Hst : fst (Engine_blobs self repository_ids reference_names
                                    commit_hashes st) = st).
    { unfold Engine_blobs, bind.
      destruct (isinstance repository_ids T_list); [|reflexivity].
      destruct (isinstance reference_names T_list); [|reflexivity].
      destruct (isinstance commit_hashes T_list); [discriminate L|reflexivity]. }
    rewrite Hst. apply new_calls_refl.
Qed.

(** X6.  After construction an [Engine] talks to its engine object only:
    [repositories], [blobs], [from_metadata], [from_repositories] and
    [save_metadata] each issue at most one request, and it is addressed to
    the object [Engine.apply] returned, never to the JVM view, the session
    or the implicits. *)
Theorem X6_engine_methods_ask_the_engine_object_only
        (self : engine J) (a b c : pyval J) (st : state J W) :
  at_most_one_request_to (__engine self) st (fst (Engine_repositories self st)) /\
  at_most_one_request_to (__engine self) st (fst (Engine_blobs self a b c st)) /\
  at_most_one_request_to (__engine self) st (fst (Engine_from_metadata self a b st)) /\
  at_most_one_request_to (__engine self) st (fst (Engine_from_repositories self st)) /\
  at_most_one_request_to (__engine self) st (fst (Engine_save_metadata self a b st)).
Proof.
  assert (one : forall m args,
             at_most_one_request_to
               (__engine self) st
               (mkState (fst (invoke (mkCall (__engine self) m args) (world st)))
                        (trace st ++ [mkCall (__engine self) m args]))).
  { intros m args. right. exists m, args. apply new_calls_of_app. reflexivity. }
  repeat split.
  - unfold Engine_repositories, bind. rewrite call_run.
    destruct (snd (invoke _ (world st))); apply one.
  - unfold Engine_blobs, bind.
    destruct (isinstance a T_list); [|left; apply new_calls_refl].
    destruct (isinstance b T_list); [|left; apply new_calls_refl].
    destruct (isinstance c T_list); [|left; apply new_calls_refl].
    cbn [negb]. unfold ret at 1 2 3. rewrite call_run.
    destruct (snd (invoke _ (world st))); apply one.
  - unfold Engine_from_metadata, bind. rewrite call_run.
    destruct (snd (invoke _ (world st))); apply one.
  - unfold Engine_from_repositories, bind. rewrite call_run.
    destruct (snd (invoke _ (world st))); apply one.
  - unfold Engine_save_metadata, bind. rewrite call_run.
    destruct (snd (invoke _ (world st))); apply one.
Qed.

(** X7.  The defaults of [db_name] agree: [save_metadata(path)] followed by
    [from_metadata(path)] asks the engine to save and then to read the same
    database, [engine_metadata.db] in [path], and returns the [Engine] it
    was called on when both requests are answered. *)
Theorem X7_default_arguments_agree
        (self : engine J) (path : pyval J) (st st' : state J W) (v : pyval J) :
  (Engine_save_metadata_kw self path None ;;;
   Engine_from_metadata_kw self path None) st = (st', inr v) ->
  v = PyEngine self /\
  (exists db_name,
      new_calls st st' = [mkCall (__engine self) "saveMetadata" [path; db_name];
                          mkCall (__engine self) "fromMetadata" [path; db_name]]
      /\ db_name = PyStr "engine_metadata.db").
Proof.
  intros H.
  unfold Engine_save_metadata_kw, Engine_from_metadata_kw, with_default,
    Engine_save_metadata, Engine_from_metadata in H.
  apply bind_returns in H as (st1 & v1 & H1 & H2).
  apply bind_returns in H1 as (st0 & j0 & H0 & H1).
  apply call_returns in H0 as (w0 & _ & ->). inversion H1; subst; clear H1.
  apply bind_returns in H2 as (st2 & j2 & H2 & H3).
  apply call_returns in H2 as (w2 & _ & ->). inversion H3; subst; clear H3.
  split; [reflexivity|].
  exists default_db_name. split; [|reflexivity].
  apply new_calls_of_app. cbn [trace]. rewrite <- app_assoc. reflexivity.
Qed.

End EngineMethods.

(** ** Generic operations, beyond the re-wrapping *)

Section GenericFacts.

Context {J W : Type} {E : External J W}.

(** X8.  On a pyspark that does not know the method behind a generic
    attribute, the attribute still exists on [SourcedDataFrame], but a call
    of it does not raise the [AttributeError] of the failed lookup: under
    Python 3 the name that held it is unbound by then, and every call
    raises a [NameError], whatever the receiver and the arguments; nothing
    is asked of pyspark or of the engine and the state is untouched. *)
Theorem X8_generic_attribute_of_an_older_pyspark
        (attr name : string) (g : pymethod)
        (self : pyval J) (a : pyargs J) (st : state J W) :
  wrapped_name attr generic_methods = Some name ->
  DataFrame_getattr name = None ->
  SourcedDataFrame_generic attr = Some g ->
  exists message,
    g self a st = (st, inl (mkExc (OtherError "NameError") message)) /\
    exc_type (mkExc (OtherError "NameError") message) <> AttributeError.
Proof.
  intros Hname Hnone Hg. unfold SourcedDataFrame_generic in Hg.
  rewrite Hname in Hg. inversion Hg; subst g.
  unfold __generate_method. rewrite Hnone.
  eexists. split; [reflexivity|]. discriminate.
Qed.

(** X9.  A generic operation re-wraps dataframes only.  When the pyspark
    method answers with anything else (the list of [randomSplit], say),
    the caller gets that very value, whatever its own class: the dataframes
    inside a list are not turned into proxies. *)
Theorem X9_generic_operations_pass_other_answers_through
        (attr name : string) (func : pyval J -> pyargs J -> ext W (pyval J))
        (g : pymethod) (self : pyval J) (a : pyargs J) (st : state J W)
        (w' : W) (v : pyval J) :
  wrapped_name attr generic_methods = Some name ->
  DataFrame_getattr name = Some func ->
  SourcedDataFrame_generic attr = Some g ->
  func self a (world st) = (w', inr v) ->
  isinstance v T_DataFrame = false ->
  g self a st = (mkState w' (trace st), inr v).
Proof.
  intros Hname Hfunc Hg F D. unfold SourcedDataFrame_generic in Hg.
  rewrite Hname in Hg. inversion Hg; subst g.
  unfold __generate_method. rewrite Hfunc.
  apply wrapper_passes; assumption.
Qed.

(** X10.  A generic operation never issues a request of its own: whatever
    it returns or raises, the trace is the one it started from.  An
    exception of the pyspark method leaves the operation as it was raised,
    with the external world as pyspark left it. *)
Theorem X10_generic_operations_issue_no_request
        (attr : string) (g : pymethod)
        (self : pyval J) (a : pyargs J) (st : state J W) :
  SourcedDataFrame_generic attr = Some g ->
  trace (fst (g self a st)) = trace st /\
  (forall name func w' e,
      wrapped_name attr generic_methods = Some name ->
      DataFrame_getattr name = Some func ->
      func self a (world st) = (w', inl e) ->
      g self a st = (mkState w' (trace st), inl e)).
Proof.
  intros Hg. unfold SourcedDataFrame_generic in Hg.
  destruct (wrapped_name attr generic_methods) as [name|] eqn:Hname;
    [|discriminate Hg].
  inversion Hg; subst g. split.
  - destruct (__generate_method name self a st) as [st' r] eqn:R.
    apply generated_trace in R. exact R.
  - intros name' func w' e Hname' Hfunc F. inversion Hname'; subst name'.
    unfold __generate_method. rewrite Hfunc. apply wrapper_raises. exact F.
Qed.

(** A run of generic operations from a proxy of a specialised class: the
    trace does not move, and a tabular result is a proxy of the class,
    session and implicits of the first receiver. *)
Lemma generic_steps_invariant (self : proxy J) st ops v st' :
  generic_steps self st ops v st' ->
  __class__ self <> SourcedDataFrame ->
  trace st' = trace st /\
  (isinstance v T_DataFrame = true ->
   exists p, v = PyProxy p /\ __class__ p = __class__ self /\
             _session p = _session self /\ _implicits p = _implicits self).
Proof.
  induction 1 as [self st
                 |self st attr a g v st' Hg Hrun
                 |self st attr a g p st1 rest v st' Hg Hrun Hrest IH];
    intros K.
  - split; [reflexivity|]. intros _. exists self. auto.
  - unfold SourcedDataFrame_generic in Hg.
    destruct (wrapped_name attr generic_methods) as [name|]; [|discriminate Hg].
    inversion Hg; subst g. split.
    + apply generated_trace in Hrun. exact Hrun.
    + intros D. unfold __generate_method in Hrun.
      destruct (DataFrame_getattr name) as [func|]; [|discriminate Hrun].
      apply wrapper_returns in Hrun
        as (w' & d & _ & _ & [[D' ->]|[jdf [_ ->]]]); [congruence| |exact K].
      eexists. repeat split.
  - unfold SourcedDataFrame_generic in Hg.
    destruct (wrapped_name attr generic_methods) as [name|]; [|discriminate Hg].
    inversion Hg; subst g.
    assert (T1 : trace st1 = trace st) by (apply generated_trace in Hrun; exact Hrun).
    unfold __generate_method in Hrun.
    destruct (DataFrame_getattr name) as [func|]; [|discriminate Hrun].
    apply wrapper_returns in Hrun as (w' & d & _ & _ & [[D' Hd]|[jdf [_ Hp]]]);
      [|inversion Hp; subst p|exact K].
    + subst d. discriminate D'.
    + cbn [__class__ _session _implicits] in IH.
      destruct (IH K) as [T2 IH2]. split; [congruence|exact IH2].
Qed.

(** X11.  Generic operations compose without losing the class: after any
    number of them, started from a proxy of a specialised class, a
    tabular result is a proxy of that same class with the same session and
    implicits, and no request has been issued on the way. *)
Theorem X11_chains_of_generic_operations_keep_the_class
        (self : proxy J) (st st' : state J W)
        (ops : list (string * pyargs J)) (v : pyval J) :
  generic_steps self st ops v st' ->
  __class__ self <> SourcedDataFrame ->
  isinstance v T_DataFrame = true ->
  new_calls st st' = [] /\
  exists p, v = PyProxy p /\ __class__ p = __class__ self /\
            _session p = _session self /\ _implicits p = _implicits self.
Proof.
  intros Hsteps K D.
  destruct (generic_steps_invariant self st ops v st' Hsteps K) as [T Hv].
  split; [|exact (Hv D)].
  apply new_calls_of_app. rewrite T. symmetry. apply app_nil_r.
Qed.

End GenericFacts.

(** ** Paths of navigations *)

Section Paths.

Context {J W : Type} {E : External J W}.

Lemma send_returns (self : proxy J) (n : navigation J) (st st' : state J W) p :
  send self n st = (st', inr p) ->
  exists f d,
    navigation_method (__class__ self) n = Some f /\
    rtype (__class__ self) n = Some d /\
    f self st = (st', inr p).
Proof.
  unfold send. intros H.
  destruct (navigation_method (__class__ self) n) as [f|] eqn:Hf;
    [|discriminate H].
  destruct (proj2 (rtype_defined (__class__ self) n) (ex_intro _ f Hf)) as [d Hd].
  exists f, d. auto.
Qed.

(** The requests one navigation adds to the trace. *)
Lemma navigation_step_requests (k : klass) (n : navigation J) f
      (self : proxy J) (st st' : state J W) p :
  navigation_method k n = Some f ->
  f self st = (st', inr p) ->
  exists added,
    trace st' = (trace st ++ added)%list /\
    length (handle_requests added) = step_requests k n /\
    Forall (fun c => method c = "EngineDataFrame" -> c = EngineDataFrame_call self)
           added.
Proof.
  intros Hf Hrun. apply navigation_method_cases in Hf.
  unfold step_requests. destruct (shape_of k n).
  - destruct Hf as (d & m & a & _ & -> & Hm).
    apply engine_request_returns in Hrun
      as (w1 & edf & w2 & jdf & _ & _ & -> & _).
    eexists. split; [reflexivity|]. split.
    + unfold handle_requests. cbn [filter].
      rewrite view_is_not_a_handle_request.
      unfold is_handle_request. cbn [method]. rewrite Hm. reflexivity.
    + repeat constructor. cbn [method]. intros ->. discriminate Hm.
  - destruct Hf as (_ & ->).
    apply head_ref_returns in Hrun
      as (w1 & edf & w2 & refs & w3 & jdf & _ & _ & _ & -> & _).
    eexists. split; [reflexivity|]. split; [reflexivity|].
    repeat constructor; cbn [method]; intros H; discriminate H.
  - destruct Hf as (name & _ & ->).
    apply ref_returns in Hrun as (Ht & _).
    exists []. split; [rewrite app_nil_r; exact Ht|]. split; [reflexivity|].
    constructor.
Qed.

Lemma handle_requests_app (a b : list (jcall J)) :
  handle_requests (a ++ b) = (handle_requests a ++ handle_requests b)%list.
Proof.
  unfold handle_requests. apply filter_app.
Qed.

Lemma follow_returns (ns : list (navigation J)) (self : proxy J)
      (st st' : state J W) (p : proxy J) :
  follow ns self st = (st', inr p) ->
  route (__class__ self) ns = Some (__class__ p) /\
  _session p = _session self /\ _implicits p = _implicits self.
Proof.
  revert self st. induction ns as [|n rest IH]; intros self st H.
  - inversion H; subst. auto.
  - cbn [follow] in H. apply bind_returns in H as (st1 & p1 & H1 & H2).
    apply send_returns in H1 as (f & d & Hf & Hd & Hrun).
    destruct (navigation_returns _ _ _ _ _ _ _ _ Hf Hd Hrun) as [jdf ->].
    apply IH in H2 as (R & S & I). cbn [__class__ _session _implicits] in *.
    cbn [route]. rewrite Hd. auto.
Qed.

(** X12.  A path of navigations is typed by the docstrings: when
    [self.n1.n2...] returns, the class of the result is the one the
    declared return types lead to from the class of [self], and the result
    carries the session and the implicits of [self], however long the
    path. *)
Theorem X12_paths_follow_the_declared_return_types
        (ns : list (navigation J)) (self : proxy J) (st st' : state J W)
        (p : proxy J) :
  follow ns self st = (st', inr p) ->
  route (__class__ self) ns = Some (__class__ p) /\
  _session p = _session self /\ _implicits p = _implicits self.
Proof.
  revert self st. induction ns as [|n rest IH]; intros self st H.
  - inversion H; subst. auto.
  - cbn [follow] in H. apply bind_returns in H as (st1 & p1 & H1 & H2).
    apply send_returns in H1 as (f & d & Hf & Hd & Hrun).
    destruct (navigation_returns _ _ _ _ _ _ _ _ Hf Hd Hrun) as [jdf Hp1].
    subst p1. destruct (IH _ _ H2) as (R & S & I).
    cbn [__class__ _session _implicits] in R, S, I.
    split; [cbn [route]; rewrite Hd; exact R|]. split; assumption.
Qed.

(** X13.  A path whose every step is declared does return, with a proxy of
    the class the path leads to, when the bridge and pyspark answer their
    requests: no step fails on its own. *)
Theorem X13_declared_paths_return
        (ns : list (navigation J)) (self : proxy J) (st : state J W) (d : klass) :
  route (__class__ self) ns = Some d ->
  responsive E -> spark_responsive E ->
  exists st' p, follow ns self st = (st', inr p) /\ __class__ p = d.
Proof.
  intros R Hr Hs. revert self st R.
  induction ns as [|n rest IH]; intros self st R.
  - inversion R; subst. exists st, self. auto.
  - cbn [route] in R.
    destruct (rtype (__class__ self) n) as [d1|] eqn:Hd; [|discriminate R].
    destruct (proj1 (rtype_defined (__class__ self) n) (ex_intro _ d1 Hd))
      as [f Hf].
    destruct (navigation_total _ _ _ _ self st Hf Hd Hr Hs) as (st1 & p1 & H1 & K1).
    rewrite <- K1 in R. destruct (IH p1 st1 R) as (st' & p & H2 & K).
    exists st', p. split; [|exact K].
    cbn [follow]. unfold bind, send. rewrite Hf, H1. exact H2.
Qed.

(** X14.  The requests of a path add up step by step: a path that returns
    has asked for as many derived handles as its steps ask for (two for a
    repository-level [head_ref] or [master_ref], none for [ref], one for
    any other step), it has only added to the trace, and every engine view
    it has built is the view of the handle of the proxy at that step, built
    with the implicits of [self]. *)
Theorem X14_requests_of_a_path
        (ns : list (navigation J)) (self : proxy J) (st st' : state J W)
        (p : proxy J) :
  follow ns self st = (st', inr p) ->
  exists added,
    trace st' = (trace st ++ added)%list /\
    length (handle_requests added) = path_requests (__class__ self) ns /\
    Forall (fun c => method c = "EngineDataFrame" ->
                     target c = _implicits self) added.
Proof.
  revert self st. induction ns as [|n rest IH]; intros self st H.
  - inversion H; subst. exists []. rewrite app_nil_r. repeat split. constructor.
  - cbn [follow] in H. apply bind_returns in H as (st1 & p1 & H1 & H2).
    apply send_returns in H1 as (f & d & Hf & Hd & Hrun).
    destruct (navigation_step_requests _ _ _ _ _ _ _ Hf Hrun)
      as (added1 & T1 & N1 & V1).
    destruct (navigation_returns _ _ _ _ _ _ _ _ Hf Hd Hrun) as [jdf Hp1].
    destruct (IH _ _ H2) as (added2 & T2 & N2 & V2).
    exists (added1 ++ added2)%list. split; [|split].
    + rewrite T2, T1, app_assoc. reflexivity.
    + rewrite handle_requests_app, length_app, N1, N2.
      cbn [path_requests]. rewrite Hd. subst p1. reflexivity.
    + apply Forall_app. split.
      * eapply Forall_impl; [|exact V1]. cbn beta.
        intros c Hc Hm. rewrite (Hc Hm). reflexivity.
      * subst p1. exact V2.
Qed.

(** X15.  Every proxy reached from an [Engine] carries that engine's
    session and implicits: this holds for [repositories] followed by any
    path of navigations and for [blobs] followed by any path, and the class
    reached is the one the path leads to from the repositories class,
    respectively from the blobs class. *)
Theorem X15_proxies_of_an_engine_share_its_session_and_implicits
        (eng : engine J) (ns : list (navigation J)) (a b c : pyval J)
        (st st' : state J W) (p : proxy J) :
  ((r <- Engine_repositories eng ;; follow ns r) st = (st', inr p) ->
   route RepositoriesDataFrame ns = Some (__class__ p) /\
   _session p = session eng /\ _implicits p = __implicits eng) /\
  ((r <- Engine_blobs eng a b c ;; follow ns r) st = (st', inr p) ->
   route BlobsDataFrame ns = Some (__class__ p) /\
   _session p = session eng /\ _implicits p = __implicits eng).
Proof.
  split; intros H; apply bind_returns in H as (st1 & r & H1 & H2).
  - unfold Engine_repositories in H1.
    apply bind_returns in H1 as (st0 & jdf & _ & H1). inversion H1; subst.
    apply follow_returns in H2. exact H2.
  - unfold Engine_blobs in H1.
    apply bind_returns in H1 as (? & ? & _ & H1).
    apply bind_returns in H1 as (? & ? & _ & H1).
    apply bind_returns in H1 as (? & ? & _ & H1).
    apply bind_returns in H1 as (? & jdf & _ & H1). inversion H1; subst.
    apply follow_returns in H2. exact H2.
Qed.

End Paths.

(** ** Navigations that several classes define *)

Section SharedNavigations.

Context {J W : Type} {E : External J W}.

(** X16.  A navigation that two classes define under the same name is the
    same computation in both, with the same declared return type, unless
    it is [head_ref] or [master_ref]: [remote_references], [blobs],
    [all_reference_commits] and [extract_uasts] do not depend on the class
    they are reached through. *)
Theorem X16_shared_navigations_are_the_same_computation
        (k1 k2 : klass) (n : navigation J)
        (f1 f2 : proxy J -> M J W (proxy J))
        (self : proxy J) (st : state J W) :
  navigation_method k1 n = Some f1 ->
  navigation_method k2 n = Some f2 ->
  n <> head_ref -> n <> master_ref ->
  f1 self st = f2 self st /\ rtype k1 n = rtype k2 n.
Proof.
  intros H1 H2 Nh Nm.
  destruct n; try congruence;
    destruct k1; try discriminate H1;
    destruct k2; try discriminate H2;
    cbn in H1, H2; inversion H1; inversion H2; subst; split; reflexivity.
Qed.

(** X17.  [ReferencesDataFrame.ref] gets its handle from pyspark alone.
    Whatever it returns or raises, the trace is the one it started from.
    When it returns, pyspark has built the column [self.name], compared it
    with the given name, and been asked for [filter] with that one
    condition and no keyword; [filter] has answered with a dataframe, and
    the proxy returned is a [ReferencesDataFrame] around the handle of that
    dataframe. *)
Theorem X17_ref_is_a_filter_on_the_name_column
        (self : proxy J) (name : pyval J) (st : state J W) :
  trace (fst (ReferencesDataFrame_ref self name st)) = trace st /\
  (forall st' p,
      ReferencesDataFrame_ref self name st = (st', inr p) ->
      exists func w1 col w2 cond w3 d,
        DataFrame_getattr "filter" = Some func /\
        DataFrame___getattr__ (PyProxy self) "name" (world st) = (w1, inr col) /\
        Column___eq__ col name w1 = (w2, inr cond) /\
        func (PyProxy self) (mkArgs [cond] []) w2 = (w3, inr d) /\
        dataframe_jdf d = Some (_jdf p) /\
        __class__ p = ReferencesDataFrame /\
        world st' = w3).
Proof.
  split.
  - unfold ReferencesDataFrame_ref, bind, lift.
    destruct (DataFrame___getattr__ _ _ _) as [w1 [e|col]]; [reflexivity|].
    cbn [world trace].
    destruct (Column___eq__ _ _ _) as [w2 [e|cond]]; [reflexivity|].
    destruct (SourcedDataFrame_filter _ _ _) as [st3 [e|v]] eqn:F;
      apply generated_trace in F; cbn [trace] in F; [exact F|].
    unfold getattr__jdf, no_attribute, ret, raise.
    destruct (dataframe_jdf v); exact F.
  - intros st' p H. apply ref_returns_from_filter. exact H.
Qed.

(** X18.  A syntax-tree proxy answers with syntax-tree proxies.  With the
    defaults of their column parameters, [query_uast(query)] followed by
    [extract_tokens()] asks the engine to write the query's result in the
    column [result] and then to read the tokens from that same column. *)
Theorem X18_query_uast_then_extract_tokens_with_defaults
        (self : proxy J) (query : pyval J) (st st' : state J W) (p : proxy J) :
  (q <- UASTsDataFrame_query_uast_kw query None None self ;;
   UASTsDataFrame_extract_tokens_kw None None q) st = (st', inr p) ->
  __class__ p = UASTsDataFrame /\
  exists edf1 edf2,
    handle_requests (new_calls st st')
    = [mkCall edf1 "queryUAST" [query; PyStr "uast"; PyStr "result"];
       mkCall edf2 "extractTokens" [PyStr "result"; PyStr "tokens"]].
Proof.
  intros H. apply bind_returns in H as (st1 & q & H1 & H2).
  unfold UASTsDataFrame_query_uast_kw, UASTsDataFrame_query_uast, with_default in H1.
  unfold UASTsDataFrame_extract_tokens_kw, UASTsDataFrame_extract_tokens,
    with_default in H2.
  apply engine_request_returns in H1 as (w1 & edf1 & w2 & jdf1 & _ & _ & -> & ->).
  apply engine_request_returns in H2 as (w3 & edf2 & w4 & jdf2 & _ & _ & -> & ->).
  split; [reflexivity|].
  exists edf1, edf2.
  rewrite (new_calls_of_app st _
             [EngineDataFrame_call self;
              mkCall edf1 "queryUAST" [query; PyStr "uast"; PyStr "result"];
              EngineDataFrame_call
                (mkProxy UASTsDataFrame jdf1 (_session self) (_implicits self));
              mkCall edf2 "extractTokens" [PyStr "result"; PyStr "tokens"]]).
  - reflexivity.
  - cbn [trace]. rewrite <- app_assoc. reflexivity.
Qed.

End SharedNavigations.

(** ** The membership test on messages *)

Lemma prefix_occurs (needle s : string) :
  String.prefix needle s = true <-> exists after, s = needle ++ after.
Proof.
  revert s. induction needle as [|c needle IH]; intros s.
  - split; [intros _; exists s; reflexivity|intros _; destruct s; reflexivity].
  - destruct s as [|c' s]; simpl.
    + split; [discriminate|intros [after H]; discriminate H].
    + destruct (Ascii.ascii_dec c c') as [->|Hne].
      * rewrite IH. split; intros [after H]; exists after.
        -- rewrite H. reflexivity.
        -- inversion H. reflexivity.
      * split; [discriminate|]. intros [after H]. inversion H. congruence.
Qed.

(** X19.  The test [needle in message] that [Engine.__init__] applies to the
    message of a [TypeError] holds exactly when [needle] occurs in the
    message as a run of consecutive characters, at any position. *)
Theorem X19_membership_test_is_substring_occurrence (needle s : string) :
  str_contains needle s = true <-> occurs_in needle s.
Proof.
  unfold occurs_in. induction s as [|c s IH].
  - cbn [str_contains]. rewrite orb_false_r, prefix_occurs. split.
    + intros [after H]. exists "", after. exact H.
    + intros (before & after & H).
      destruct before as [|b before]; [exists after; exact H|discriminate H].
  - cbn [str_contains]. rewrite orb_true_iff, prefix_occurs, IH. split.
    + intros [[after H]|(before & after & H)].
      * exists "", after. exact H.
      * exists (String c before), after. simpl. rewrite H. reflexivity.
    + intros (before & after & H). destruct before as [|b before].
      * left. exists after. exact H.
      * right. inversion H. exists before, after. reflexivity.
Qed.

(** ** The further properties on the doubles *)

(** A truthy integer for [skip_cleanup], [None] for [skip_read_errors]. *)
Lemma X1_witness :
  new_calls Double.initial
            (fst (Engine___init__ Double.spark (PyStr "/repositories")
                                  (PyStr "siva") (PyInt 1) PyNone Double.initial))
  = [ Engine_apply_call ["jvm"] ["jsparkSession"]
                        (PyStr "/repositories") (PyStr "siva");
      mkCall ["jvm"; "tech.sourced.engine.Engine.apply"] "skipCleanup"
             [PyBool true];
      mkCall ["jvm"] "tech.sourced.engine.package$.MODULE$" [] ].
Proof.
  exact (proj2 (proj2 (proj2
           (X1_init_forwards_the_truthy_flags
              Double.spark (PyStr "/repositories") (PyStr "siva") (PyInt 1) PyNone
              Double.initial _
              (mkEngine Double.spark ["jsparkSession"] ["jvm"]
                        ["jvm"; "tech.sourced.engine.Engine.apply"]
                        ["jvm"; "tech.sourced.engine.package$.MODULE$"])
              eq_refl)))).
Defined.

Lemma X2_witness :
  exists rest,
    new_calls Double.initial
              (fst (Engine___init__ (E := Double.without_jar) Double.spark
                                    (PyStr "/repositories") (PyStr "siva")
                                    (PyBool true) (PyBool true) Double.initial))
    = Engine_apply_call ["jvm"] ["jsparkSession"]
                        (PyStr "/repositories") (PyStr "siva") :: rest.
Proof.
  destruct (X2_init_asks_for_the_engine_first
              (E := Double.without_jar) Double.spark
              (PyStr "/repositories") (PyStr "siva") (PyBool true) (PyBool true)
              Double.initial _ _ eq_refl) as [H|[H _]].
  - exact H.
  - discriminate H.
Defined.

Lemma X3_witness :
  Engine___init__ (E := Faulty.rejecting_skipCleanup) Double.spark
                  (PyStr "/repositories") (PyStr "siva") (PyBool true)
                  (PyBool false) Double.initial
  = (mkState 1 [ Engine_apply_call ["jvm"] ["jsparkSession"]
                                   (PyStr "/repositories") (PyStr "siva");
                 mkCall ["jvm"; "tech.sourced.engine.Engine.apply"]
                        "skipCleanup" [PyBool true] ],
     inl (mkExc TypeError "'JavaPackage' object is not callable")).
Proof.
  exact (X3_init_does_not_guard_the_later_requests
           (E := Faulty.rejecting_skipCleanup) Double.spark
           (PyStr "/repositories") (PyStr "siva") (PyBool true) (PyBool false)
           Double.initial 0 0 0 0 1 1
           ["jvm"; "tech.sourced.engine.Engine.apply"]
           (mkExc TypeError "'JavaPackage' object is not callable")
           eq_refl eq_refl eq_refl eq_refl eq_refl eq_refl eq_refl).
Defined.

(** A tuple where the list of reference names is expected, and a string
    after it. *)
Lemma X4_witness :
  Engine_blobs Double.an_engine (PyList []) (PyTuple [PyStr "refs/heads/master"])
               (PyStr "0123abc") Double.initial
  = (Double.initial, inl (mkExc Exception "reference_names must be a list")).
Proof.
  exact (proj1 (proj2
           (X4_blobs_names_the_first_parameter_that_is_not_a_list
              Double.an_engine (PyList []) (PyTuple [PyStr "refs/heads/master"])
              (PyStr "0123abc") Double.initial))
           eq_refl eq_refl).
Defined.

Lemma X5_witness :
  Engine_blobs Double.an_engine (PyList [PyStr "github.com/src-d/engine"])
               (PyList []) (PyList []) Double.initial
  = (mkState 1 [mkCall ["engine"] "getBlobs"
                       [PyList [PyStr "github.com/src-d/engine"];
                        PyList []; PyList []]],
     inr (mkProxy BlobsDataFrame ["engine"; "getBlobs"] Double.spark
                  ["implicits"])).
Proof.
  exact (proj1 (X5_blobs_asks_once_when_given_lists
                  Double.an_engine (PyList [PyStr "github.com/src-d/engine"])
                  (PyList []) (PyList []) Double.initial)
               eq_refl).
Defined.

Lemma X7_witness :
  exists db_name,
    new_calls Double.initial
              (fst ((Engine_save_metadata_kw Double.an_engine (PyStr "/tmp") None ;;;
                     Engine_from_metadata_kw Double.an_engine (PyStr "/tmp") None)
                      Double.initial))
    = [mkCall ["engine"] "saveMetadata" [PyStr "/tmp"; db_name];
       mkCall ["engine"] "fromMetadata" [PyStr "/tmp"; db_name]]
    /\ db_name = PyStr "engine_metadata.db".
Proof.
  exact (proj2 (X7_default_arguments_agree
                  Double.an_engine (PyStr "/tmp") Double.initial _
                  (PyEngine Double.an_engine) eq_refl)).
Defined.

(** [summary] on a pyspark that does not have it. *)
Lemma X8_witness :
  exists message,
    __generate_method "summary" (PyProxy (Double.a_proxy BlobsDataFrame))
                      (mkArgs [] []) Double.initial
    = (Double.initial, inl (mkExc (OtherError "NameError") message)) /\
    exc_type (mkExc (OtherError "NameError") message) <> AttributeError.
Proof.
  exact (X8_generic_attribute_of_an_older_pyspark
           "summary" "summary" (__generate_method "summary")
           (PyProxy (Double.a_proxy BlobsDataFrame)) (mkArgs [] [])
           Double.initial eq_refl eq_refl eq_refl).
Defined.

(** [randomSplit] on a commits proxy: a list of plain dataframes. *)
Lemma X9_witness :
  __generate_method "randomSplit" (PyProxy (Double.a_proxy CommitsDataFrame))
                    (mkArgs [PyStr "weights"] []) Double.initial
  = (Double.initial,
     inr (PyList [PyDataFrame ["df"; "randomSplit(weights)"] Double.spark;
                  PyDataFrame ["df"; "randomSplit(weights)"] Double.spark])).
Proof.
  exact (X9_generic_operations_pass_other_answers_through
           "randomSplit" "randomSplit" (Double.spark_call "randomSplit")
           (__generate_method "randomSplit")
           (PyProxy (Double.a_proxy CommitsDataFrame))
           (mkArgs [PyStr "weights"] []) Double.initial 0 _
           eq_refl eq_refl eq_refl eq_refl eq_refl).
Defined.

(** A [join] that pyspark rejects. *)
Lemma X10_witness :
  trace (fst (__generate_method (E := Faulty.failing_join) "join"
                                (PyProxy (Double.a_proxy CommitsDataFrame))
                                (mkArgs [PyStr "other"] []) Double.initial))
  = [] /\
  __generate_method (E := Faulty.failing_join) "join"
                    (PyProxy (Double.a_proxy CommitsDataFrame))
                    (mkArgs [PyStr "other"] []) Double.initial
  = (mkState 1 [], inl Faulty.analysis_exception).
Proof.
  destruct (X10_generic_operations_issue_no_request
              (E := Faulty.failing_join) "join"
              (__generate_method (E := Faulty.failing_join) "join")
              (PyProxy (Double.a_proxy CommitsDataFrame))
              (mkArgs [PyStr "other"] []) Double.initial eq_refl) as [T R].
  split; [exact T|].
  exact (R "join" (fun _ _ w => (S w, inl Faulty.analysis_exception)) 1
           Faulty.analysis_exception eq_refl eq_refl eq_refl).
Defined.

(** [where] and then [limit] on a commits proxy. *)
Lemma X11_witness :
  exists p,
    PyProxy (mkProxy CommitsDataFrame ["df"; "filter(x)"; "limit(10)"]
                     Double.spark ["implicits"]) = PyProxy p /\
    __class__ p = CommitsDataFrame /\
    _session p = Double.spark /\ _implicits p = ["implicits"].
Proof.
  refine (proj2 (X11_chains_of_generic_operations_keep_the_class
                   (Double.a_proxy CommitsDataFrame) Double.initial Double.initial
                   [("where", mkArgs [PyStr "x"] []);
                    ("limit", mkArgs [PyStr "10"] [])]
                   (PyProxy (mkProxy CommitsDataFrame
                                     ["df"; "filter(x)"; "limit(10)"]
                                     Double.spark ["implicits"]))
                   _ _ eq_refl)).
  - eapply steps_more with
      (p := mkProxy CommitsDataFrame ["df"; "filter(x)"] Double.spark ["implicits"]).
    + reflexivity.
    + reflexivity.
    + eapply steps_last; reflexivity.
  - discriminate.
Defined.

(** The path from repositories to syntax trees, through a reference picked
    by name. *)
Lemma X12_witness :
  route (J := Double.handle) RepositoriesDataFrame
        [references; ref (PyStr "refs/heads/master"); commits; tree_entries;
         blobs; classify_languages; extract_uasts]
  = Some UASTsDataFrame /\
  Double.spark = _session (Double.a_proxy RepositoriesDataFrame) /\
  ["implicits"] = _implicits (Double.a_proxy RepositoriesDataFrame).
Proof.
  refine (X12_paths_follow_the_declared_return_types
            [references; ref (PyStr "refs/heads/master"); commits; tree_entries;
             blobs; classify_languages; extract_uasts]
            (Double.a_proxy RepositoriesDataFrame) Double.initial
            (fst (follow [references; ref (PyStr "refs/heads/master"); commits;
                          tree_entries; blobs; classify_languages; extract_uasts]
                         (Double.a_proxy RepositoriesDataFrame) Double.initial))
            (mkProxy UASTsDataFrame
                     ["df"; "getReferences"; "filter(name == refs/heads/master)";
                      "getCommits"; "getTreeEntries"; "getBlobs";
                      "classifyLanguages"; "extractUASTs"]
                     Double.spark ["implicits"])
            _).
  vm_compute. reflexivity.
Defined.

Lemma X13_witness :
  exists st' p,
    follow [head_ref; all_reference_commits; blobs; extract_uasts;
            query_uast (PyStr "//*[@roleIdentifier]") (PyStr "uast")
                       (PyStr "result")]
           (Double.a_proxy RepositoriesDataFrame) Double.initial = (st', inr p) /\
    __class__ p = UASTsDataFrame.
Proof.
  exact (X13_declared_paths_return
           [head_ref; all_reference_commits; blobs; extract_uasts;
            query_uast (PyStr "//*[@roleIdentifier]") (PyStr "uast")
                       (PyStr "result")]
           (Double.a_proxy RepositoriesDataFrame) Double.initial UASTsDataFrame
           eq_refl recording_responsive recording_spark_responsive).
Defined.

(** Two requests for [head_ref], none for [ref], one for [commits]. *)
Lemma X14_witness :
  exists added,
    trace (fst (follow [head_ref; ref HEAD_name; commits]
                       (Double.a_proxy RepositoriesDataFrame) Double.initial))
    = ([] ++ added)%list /\
    length (handle_requests added) = 3 /\
    Forall (fun c => method c = "EngineDataFrame" -> target c = ["implicits"])
           added.
Proof.
  refine (X14_requests_of_a_path
            [head_ref; ref HEAD_name; commits]
            (Double.a_proxy RepositoriesDataFrame) Double.initial
            (fst (follow [head_ref; ref HEAD_name; commits]
                         (Double.a_proxy RepositoriesDataFrame) Double.initial))
            (mkProxy CommitsDataFrame
                     ["df"; "getReferences"; "getHEAD";
                      "filter(name == refs/heads/HEAD)"; "getCommits"]
                     Double.spark ["implicits"])
            _).
  vm_compute. reflexivity.
Defined.

Lemma X15_witness :
  (route (J := Double.handle) RepositoriesDataFrame [references; commits]
   = Some CommitsDataFrame /\
   Double.spark = session Double.an_engine /\
   ["implicits"] = __implicits Double.an_engine) /\
  (route (J := Double.handle) BlobsDataFrame [classify_languages; extract_uasts]
   = Some UASTsDataFrame /\
   Double.spark = session Double.an_engine /\
   ["implicits"] = __implicits Double.an_engine).
Proof.
  split.
  - refine (proj1 (X15_proxies_of_an_engine_share_its_session_and_implicits
                     Double.an_engine [references; commits]
                     PyNone PyNone PyNone Double.initial
                     (fst ((r <- Engine_repositories Double.an_engine ;;
                            follow [references; commits] r) Double.initial))
                     (mkProxy CommitsDataFrame
                              ["engine"; "getRepositories"; "getReferences";
                               "getCommits"]
                              Double.spark ["implicits"]))
                  _).
    vm_compute. reflexivity.
  - refine (proj2 (X15_proxies_of_an_engine_share_its_session_and_implicits
                     Double.an_engine [classify_languages; extract_uasts]
                     (PyList []) (PyList []) (PyList []) Double.initial
                     (fst ((r <- Engine_blobs Double.an_engine (PyList [])
                                              (PyList []) (PyList []) ;;
                            follow [classify_languages; extract_uasts] r)
                             Double.initial))
                     (mkProxy UASTsDataFrame
                              ["engine"; "getBlobs"; "classifyLanguages";
                               "extractUASTs"]
                              Double.spark ["implicits"]))
                  _).
    vm_compute. reflexivity.
Defined.

(** [blobs] reached through a commits proxy and through a tree-entries
    proxy. *)
Lemma X16_witness :
  CommitsDataFrame_blobs (Double.a_proxy CommitsDataFrame) Double.initial
  = TreeEntriesDataFrame_blobs (Double.a_proxy CommitsDataFrame) Double.initial /\
  rtype (J := Double.handle) CommitsDataFrame blobs
  = rtype (J := Double.handle) TreeEntriesDataFrame blobs.
Proof.
  refine (X16_shared_navigations_are_the_same_computation
            CommitsDataFrame TreeEntriesDataFrame blobs
            CommitsDataFrame_blobs TreeEntriesDataFrame_blobs
            (Double.a_proxy CommitsDataFrame) Double.initial
            eq_refl eq_refl _ _); discriminate.
Defined.

Lemma X17_witness :
  exists func w1 col w2 cond w3 d,
    Double.spark_method "filter" = Some func /\
    Double.spark_column (PyProxy (Double.a_proxy ReferencesDataFrame)) "name" 0
    = (w1, inr col) /\
    Double.spark_eq col (PyStr "refs/heads/develop") w1 = (w2, inr cond) /\
    func (PyProxy (Double.a_proxy ReferencesDataFrame)) (mkArgs [cond] []) w2
    = (w3, inr d) /\
    dataframe_jdf d
    = Some ["df"; "filter(name == refs/heads/develop)"] /\
    ReferencesDataFrame = ReferencesDataFrame /\
    0 = w3.
Proof.
  exact (proj2 (X17_ref_is_a_filter_on_the_name_column
                  (Double.a_proxy ReferencesDataFrame)
                  (PyStr "refs/heads/develop") Double.initial)
               Double.initial
               (mkProxy ReferencesDataFrame
                        ["df"; "filter(name == refs/heads/develop)"]
                        Double.spark ["implicits"])
               eq_refl).
Defined.

Lemma X18_witness :
  exists edf1 edf2,
    handle_requests
      (new_calls Double.initial
                 (fst ((q <- UASTsDataFrame_query_uast_kw
                               (PyStr "//*[@roleIdentifier]") None None
                               (Double.a_proxy UASTsDataFrame) ;;
                        UASTsDataFrame_extract_tokens_kw None None q)
                         Double.initial)))
    = [mkCall edf1 "queryUAST"
              [PyStr "//*[@roleIdentifier]"; PyStr "uast"; PyStr "result"];
       mkCall edf2 "extractTokens" [PyStr "result"; PyStr "tokens"]].
Proof.
  refine (proj2 (X18_query_uast_then_extract_tokens_with_defaults
                   (Double.a_proxy UASTsDataFrame) (PyStr "//*[@roleIdentifier]")
                   Double.initial _
                   (mkProxy UASTsDataFrame ["df"; "queryUAST"; "extractTokens"]
                            Double.spark ["implicits"])
                   _)).
  vm_compute. reflexivity.
Defined.

(** ** Engine.__init__: failures that carry a message *)

Section EngineInitMessages.

Context {J W : Type} {E : External J W}.

(** X20.  Let the settings and imports that open [Engine.__init__] go
    through, and let the bridge fail the request for the engine with the
    exception [e].  Initialization stops there, with that single request
    recorded and nothing asked again.  When [e] is not a [TypeError] it is
    raised as it is.  When [e] is a [TypeError] whose first argument is a
    string, the error that tells the caller to provide a jar with the
    package or to install it is raised if that string mentions
    [JavaPackage], and [e] itself is raised if it does not. *)
Theorem X20_failures_of_the_engine_request
        (sess : SparkSession J)
        (repos_path repos_format skip_cleanup skip_read_errors : pyval J)
        (st : state J W) (w1 w2 w3 w4 w5 : W) (e : pyexc) :
  conf_set sess "spark.tech.sourced.engine.repositories.path" repos_path
           (world st) = (w1, inr tt) ->
  conf_set sess "spark.tech.sourced.engine.repositories.format" repos_format
           w1 = (w2, inr tt) ->
  java_import (sparkContext_gateway_jvm sess) "tech.sourced.engine.Engine" w2
  = (w3, inr tt) ->
  java_import (sparkContext_gateway_jvm sess) "tech.sourced.engine.package$" w3
  = (w4, inr tt) ->
  invoke (Engine_apply_call (sparkContext_gateway_jvm sess)
                            (_jsparkSession sess) repos_path repos_format) w4
  = (w5, inl e) ->
  (is_TypeError e = false ->
   Engine___init__ sess repos_path repos_format skip_cleanup skip_read_errors st =
   (mkState w5
            (trace st ++
             [Engine_apply_call (sparkContext_gateway_jvm sess)
                                (_jsparkSession sess) repos_path repos_format]),
    inl e)) /\
  (forall message rest,
      is_TypeError e = true ->
      exc_args e = ArgStr message :: rest ->
      Engine___init__ sess repos_path repos_format skip_cleanup skip_read_errors st =
      (mkState w5
               (trace st ++
                [Engine_apply_call (sparkContext_gateway_jvm sess)
                                   (_jsparkSession sess) repos_path repos_format]),
       inl (if str_contains "JavaPackage" message
            then mkExc Exception package_missing_message
            else e))) /\
  str_contains "Please, provide a jar with the package or install the package"
               package_missing_message = true.
Proof.
  intros C1 C2 I1 I2 A. split; [|split; [|reflexivity]].
  - intros T.
    rewrite (Engine_init_apply_fails _ _ _ _ _ _ _ _ _ _ _ _ C1 C2 I1 I2 A).
    rewrite T. reflexivity.
  - intros message rest T Hargs.
    rewrite (Engine_init_apply_fails _ _ _ _ _ _ _ _ _ _ _ _ C1 C2 I1 I2 A).
    rewrite T. unfold handler_outcome. rewrite Hargs. cbn [py_in].
    destruct (str_contains "JavaPackage" message); reflexivity.
Qed.


End EngineInitMessages.

(** A missing jar gives the error about the package; a rejected path is
    raised as the bridge raised it. *)
Lemma X20_witness :
  Engine___init__ (E := Double.without_jar) Double.spark
                  (PyStr "/repositories") (PyStr "siva") (PyBool false)
                  (PyBool false) Double.initial
  = (mkState 0 [Engine_apply_call ["jvm"] ["jsparkSession"]
                                  (PyStr "/repositories") (PyStr "siva")],
     inl (mkExc Exception package_missing_message)) /\
  Engine___init__ (E := Double.bad_path) Double.spark
                  (PyStr "/nowhere") (PyStr "siva") (PyBool false)
                  (PyBool false) Double.initial
  = (mkState 0 [Engine_apply_call ["jvm"] ["jsparkSession"]
                                  (PyStr "/nowhere") (PyStr "siva")],
     inl (mkExc Py4JJavaError "An error occurred while calling apply")).
Proof.
  split.
  - exact (proj1 (proj2
             (X20_failures_of_the_engine_request
                (E := Double.without_jar) Double.spark
                (PyStr "/repositories") (PyStr "siva") (PyBool false)
                (PyBool false) Double.initial 0 0 0 0 0
                (mkExc TypeError "'JavaPackage' object is not callable")
                eq_refl eq_refl eq_refl eq_refl eq_refl))
             "'JavaPackage' object is not callable" [] eq_refl eq_refl).
  - exact (proj1
             (X20_failures_of_the_engine_request
                (E := Double.bad_path) Double.spark
                (PyStr "/nowhere") (PyStr "siva") (PyBool false)
                (PyBool false) Double.initial 0 0 0 0 0
                (mkExc Py4JJavaError "An error occurred while calling apply")
                eq_refl eq_refl eq_refl eq_refl eq_refl)
             eq_refl).
Defined.


